(** * Favourites endpoint: /api/recipes/favourite

    A shallow embedding of the serverless handler for favourite recipes
    (POST / GET / DELETE / OPTIONS), of the JavaScript values and
    operators it relies on, and of the two collaborators it calls: the
    Prisma table [favouriteRecipes] and [getFavouriteRecipesByIDs]. *)

From Stdlib Require Import ZArith String Ascii List Bool Lia.
From Stdlib Require Import DecimalString DecimalZ DecimalPos.
From stdpp Require Import gmap strings list.

Local Open Scope string_scope.
Local Open Scope Z_scope.

(** ** JavaScript values *)

Module JS.

(** The values that travel through the handler: parsed JSON bodies,
    thrown values and JSON payloads.  Numbers are the integers and NaN;
    a fractional number behaves like any other non-zero number in every
    test the handler makes (truthiness and [=== 402]).  [VError] is an
    instance of [Error]: its [message] is a string, and it may carry own
    properties such as [code]. *)
#[warnings="-register-all"]
Inductive jsval : Type :=
| VUndefined
| VNull
| VBool (b : bool)
| VNum (n : Z)
| VNaN
| VStr (s : string)
| VArr (elems : list jsval)
| VObj (props : list (string * jsval))
| VError (message : string) (props : list (string * jsval)).

(** Abrupt or normal completion of an awaited call. *)
Inductive completion (A : Type) : Type :=
| Normal (a : A)
| Thrown (e : jsval).
Arguments Normal {A} a.
Arguments Thrown {A} e.

(** [ToBoolean]: the falsy values are undefined, null, false, 0, NaN
    and the empty string. *)
Definition truthy (v : jsval) : bool :=
  match v with
  | VUndefined | VNull | VNaN => false
  | VBool b => b
  | VNum n => negb (n =? 0)
  | VStr s => negb (String.eqb s "")
  | VArr _ | VObj _ | VError _ _ => true
  end.

(** Own-property lookup; an object is written as the list of its
    properties, and a missing property reads as undefined. *)
Fixpoint assoc (k : string) (props : list (string * jsval)) : jsval :=
  match props with
  | [] => VUndefined
  | (k', v) :: rest => if String.eqb k' k then v else assoc k rest
  end.

(** [v.k] for a value that is neither null nor undefined.  Primitives
    and arrays have none of the properties the handler reads
    ([recipeId], [code], [message]). *)
Definition getProp (v : jsval) (k : string) : jsval :=
  match v with
  | VObj props => assoc k props
  | VError message props =>
      if String.eqb k "message" then VStr message else assoc k props
  | _ => VUndefined
  end.

Definition isNullish (v : jsval) : bool :=
  match v with
  | VUndefined | VNull => true
  | _ => false
  end.

(** [v?.k] *)
Definition optChain (v : jsval) (k : string) : jsval :=
  if isNullish v then VUndefined else getProp v k.

(** [error instanceof Error] *)
Definition instanceofError (v : jsval) : bool :=
  match v with
  | VError _ _ => true
  | _ => false
  end.

(** [String.prototype.includes]: [sub] occurs somewhere in [s]. *)
Fixpoint includes (s sub : string) : bool :=
  if String.prefix sub s then true
  else match s with
       | EmptyString => false
       | String _ rest => includes rest sub
       end.

(** [Array.prototype.includes] with a string argument: some element is
    that very string. *)
Definition arrayIncludes (elems : list jsval) (x : string) : bool :=
  existsb (fun e => match e with VStr s => String.eqb s x | _ => false end) elems.

(** A TypeError raised by the engine; the message texts used below are
    the ones V8 prints. *)
Definition TypeError (message : string) : jsval := VError message [("name", VStr "TypeError")].

(** [error.message.includes(x)] for an instance of [Error]. *)
Definition messageIncludes (error : jsval) (x : string) : bool :=
  match getProp error "message" with
  | VStr m => includes m x
  | _ => false
  end.

(** [m?.includes(x)]: undefined when [m] is nullish, the string or array
    method when [m] has one, and a TypeError when [m.includes] is not
    callable. *)
Definition optIncludes (m : jsval) (x : string) : completion jsval :=
  match m with
  | VUndefined | VNull => Normal VUndefined
  | VStr s => Normal (VBool (includes s x))
  | VArr elems => Normal (VBool (arrayIncludes elems x))
  | _ => Thrown (TypeError "apiError?.message?.includes is not a function")
  end.

(** [v === n] for a number literal [n]. *)
Definition strictEqNum (v : jsval) (n : Z) : bool :=
  match v with
  | VNum m => m =? n
  | _ => false
  end.

(** [const { k } = v]: destructuring null or undefined throws. *)
Definition destructure (v : jsval) (k : string) : completion jsval :=
  if isNullish v
  then Thrown (TypeError
         ("Cannot destructure property '" ++ k ++ "' of 'request.body' as it is " ++
          (match v with VNull => "null" | _ => "undefined" end) ++ "."))
  else Normal (getProp v k).

(** [Number.prototype.toString] on an integer: an optional minus sign
    and the decimal digits, without leading zeros.  (JavaScript prints
    this form for every integer below 10^21 in magnitude, which covers
    an [Int] column.) *)
Definition toString (n : Z) : string := NilZero.string_of_int (Z.to_int n).

Definition isWhiteSpace (c : ascii) : bool :=
  match c with
  | " "%char | "009"%char | "010"%char | "011"%char | "012"%char | "013"%char => true
  | _ => false
  end.

Fixpoint trimStart (s : string) : string :=
  match s with
  | String c rest => if isWhiteSpace c then trimStart rest else s
  | EmptyString => s
  end.

Definition digitValue (radix : Z) (c : ascii) : option Z :=
  let n := Z.of_nat (nat_of_ascii c) in
  let d := if (48 <=? n) && (n <=? 57) then Some (n - 48)
           else if (97 <=? n) && (n <=? 102) then Some (n - 87)
           else if (65 <=? n) && (n <=? 70) then Some (n - 55)
           else None in
  match d with
  | Some v => if v <? radix then Some v else None
  | None => None
  end.

(** The longest prefix of radix digits, read most significant first;
    [None] when the prefix is empty. *)
Fixpoint parseDigits (radix : Z) (s : string) (acc : option Z) : option Z :=
  match s with
  | EmptyString => acc
  | String c rest =>
      match digitValue radix c with
      | Some d => parseDigits radix rest (Some (radix * match acc with Some a => a | None => 0 end + d))
      | None => acc
      end
  end.

(** [parseInt(s)] without a radix argument: leading white space, a
    sign, an optional [0x] prefix, then digits; NaN when no digit
    follows. *)
Definition parseInt (s : string) : jsval :=
  let s1 := trimStart s in
  let '(neg, s2) := match s1 with
                    | String "-"%char r => (true, r)
                    | String "+"%char r => (false, r)
                    | _ => (false, s1)
                    end in
  let '(radix, s3) := match s2 with
                      | String "0"%char (String "x"%char r) => (16, r)
                      | String "0"%char (String "X"%char r) => (16, r)
                      | _ => (10, s2)
                      end in
  match parseDigits radix s3 None with
  | Some m => VNum (if neg then - m else m)
  | None => VNaN
  end.

(** [Object.prototype.hasOwnProperty]: the object has a property of
    that name, whatever its value. *)
Definition hasOwnProperty (k : string) (props : list (string * jsval)) : bool :=
  existsb (fun p => String.eqb (fst p) k) props.

(** [String(v)] throws.  An object converts through its [toString]
    method: an own [toString] property hides the inherited one, and as
    no value here is a function, the conversion then fails.  An array
    converts each element that is not null or undefined; an Error
    converts its [name]. *)
Fixpoint stringThrows (v : jsval) : bool :=
  match v with
  | VObj props => hasOwnProperty "toString" props
  | VArr elems => existsb stringThrows elems
  | VError _ props =>
      hasOwnProperty "toString" props ||
      (fix nameThrows (ps : list (string * jsval)) : bool :=
         match ps with
         | [] => false
         | (k, x) :: rest => if String.eqb k "name" then stringThrows x else nameThrows rest
         end) props
  | _ => false
  end.

End JS.

Import JS.

(** Lower-casing of the ASCII letters, as applied to header names and,
    in the samples, to email addresses. *)
Definition lowerAscii (c : ascii) : ascii :=
  let n := nat_of_ascii c in
  if (65 <=? n)%nat && (n <=? 90)%nat then ascii_of_nat (n + 32) else c.

Fixpoint lowerCase (s : string) : string :=
  match s with
  | EmptyString => EmptyString
  | String c rest => String (lowerAscii c) (lowerCase rest)
  end.

(** ** The HTTP response object *)

Inductive payload : Type :=
| NotSent
| Ended
| Json (v : jsval).

(** [VercelResponse], as far as the handler drives it: the status code,
    the header table and what was sent.  Header names are not case
    sensitive: the table is keyed by the lower-cased name. *)
Record VercelResponse : Type := {
  statusCode : Z;
  headers : gmap string string;
  sent : payload
}.

Record VercelRequest : Type := {
  method : string;
  body : jsval
}.

Definition setHeader (k v : string) (response : VercelResponse) : VercelResponse :=
  {| statusCode := statusCode response;
     headers := <[lowerCase k := v]> (headers response);
     sent := sent response |}.

Definition getHeader (k : string) (response : VercelResponse) : option string :=
  headers response !! lowerCase k.

Definition status (code : Z) (response : VercelResponse) : VercelResponse :=
  {| statusCode := code; headers := headers response; sent := sent response |}.

Definition json (v : jsval) (response : VercelResponse) : VercelResponse :=
  {| statusCode := statusCode response; headers := headers response; sent := Json v |}.

Definition end_ (response : VercelResponse) : VercelResponse :=
  {| statusCode := statusCode response; headers := headers response; sent := Ended |}.

Definition setCorsHeaders (response : VercelResponse) : VercelResponse :=
  setHeader "Access-Control-Allow-Headers" "Content-Type"
    (setHeader "Access-Control-Allow-Methods" "GET, POST, DELETE, OPTIONS"
       (setHeader "Access-Control-Allow-Origin" "*" response)).

(** ** The collaborators *)

(** A row of the favourites table.  The handler reads the integer column
    [recipeId] and nothing else. *)
Record FavouriteRecord : Type := { recipeId : Z }.

(** [prisma.favouriteRecipes]: the three queries the handler issues,
    over a database state [DB].  [create] and [delete] may change the
    table, [findMany] reads it, and any of them may throw. *)
Class PrismaFavouriteRecipes (DB : Type) : Type := {
  prisma_create : jsval -> DB -> completion jsval * DB;
  prisma_findMany : DB -> completion (list FavouriteRecord);
  prisma_delete : jsval -> DB -> completion unit * DB;
  (** the recipe IDs the table holds *)
  persisted : DB -> list Z
}.

Inductive Query : Type :=
| QCreate (recipeId : jsval)
| QFindMany
| QDelete (recipeId : jsval).

(** What the handler can touch besides the response: the database, the
    log of the queries it issued, and the log of its calls to
    [getFavouriteRecipesByIDs]. *)
Record World (DB : Type) : Type := {
  db : DB;
  queries : list Query;
  upstreamCalls : list (list string)
}.
Arguments db {DB} w.
Arguments queries {DB} w.
Arguments upstreamCalls {DB} w.
Arguments Build_World {DB} db queries upstreamCalls.

(** ** A state-and-exception monad for the handler body *)

Definition M (DB A : Type) : Type := World DB -> completion A * World DB.

Definition ret {DB A} (a : A) : M DB A := fun w => (Normal a, w).

Definition throw {DB A} (e : jsval) : M DB A := fun w => (Thrown e, w).

Definition bind {DB A B} (m : M DB A) (k : A -> M DB B) : M DB B :=
  fun w =>
    match m w with
    | (Normal a, w') => k a w'
    | (Thrown e, w') => (Thrown e, w')
    end.

(** [try { m } catch (e) { h e }] *)
Definition tryCatch {DB A} (m : M DB A) (h : jsval -> M DB A) : M DB A :=
  fun w =>
    match m w with
    | (Normal a, w') => (Normal a, w')
    | (Thrown e, w') => h e w'
    end.

Definition liftCompletion {DB A} (c : completion A) : M DB A := fun w => (c, w).

Notation "'let!' x ':=' m 'in' k" := (bind m (fun x => k))
  (at level 10, x name, m at level 100, k at level 200).

(** ** The handler *)

Section Handler.

Context {DB : Type} {prisma : PrismaFavouriteRecipes DB}.

(** [getFavouriteRecipesByIDs] of lib/recipe-api: given the stored IDs
    as strings it returns the JSON to send, or throws. *)
Variable getFavouriteRecipesByIDs : list string -> completion jsval.

(** [await prisma.favouriteRecipes.create({ data: { recipeId } })] *)
Definition create (recipeId : jsval) : M DB jsval :=
  fun w =>
    let '(c, d) := prisma_create recipeId (db w) in
    (c, {| db := d;
           queries := (queries w ++ [QCreate recipeId])%list;
           upstreamCalls := upstreamCalls w |}).

(** [await prisma.favouriteRecipes.findMany()] *)
Definition findMany : M DB (list FavouriteRecord) :=
  fun w =>
    (prisma_findMany (db w),
     {| db := db w;
        queries := (queries w ++ [QFindMany])%list;
        upstreamCalls := upstreamCalls w |}).

(** [await prisma.favouriteRecipes.delete({ where: { recipeId } })] *)
Definition delete_ (recipeId : jsval) : M DB unit :=
  fun w =>
    let '(c, d) := prisma_delete recipeId (db w) in
    (c, {| db := d;
           queries := (queries w ++ [QDelete recipeId])%list;
           upstreamCalls := upstreamCalls w |}).

(** [await getFavouriteRecipesByIDs(recipeIds)] *)
Definition callGetFavouriteRecipesByIDs (recipeIds : list string) : M DB jsval :=
  fun w =>
    (getFavouriteRecipesByIDs recipeIds,
     {| db := db w;
        queries := queries w;
        upstreamCalls := (upstreamCalls w ++ [recipeIds])%list |}).

(** [apiError?.code === 402 || apiError?.message?.includes("points limit")
     || apiError?.message?.includes("daily limit")], evaluated left to
    right with short-circuit, then tested by [if]. *)
Definition isApiLimitError (apiError : jsval) : completion bool :=
  if strictEqNum (optChain apiError "code") 402 then Normal true
  else
    match optIncludes (optChain apiError "message") "points limit" with
    | Thrown e => Thrown e
    | Normal pointsLimit =>
        if truthy pointsLimit then Normal true
        else
          match optIncludes (optChain apiError "message") "daily limit" with
          | Thrown e => Thrown e
          | Normal dailyLimit => Normal (truthy dailyLimit)
          end
    end.

Definition limitNotice : string :=
  "Your favourites are saved, but recipe details are temporarily unavailable due to API daily limit. They will appear once the limit resets.".

(** The placeholder sent for one stored ID when the API limit is hit. *)
Definition degradedRecord (id : string) : jsval :=
  VObj [("id", parseInt id);
        ("title", VStr ("Recipe #" ++ id ++ " (Details unavailable - API limit reached)"));
        ("image", VNull);
        ("_apiUnavailable", VBool true)].

Definition degradedBody (recipeIds : list string) : jsval :=
  VObj [("results", VArr (map degradedRecord recipeIds));
        ("_message", VStr limitNotice)].

Definition errorBody (msg : string) : jsval := VObj [("error", VStr msg)].

(** The argument of the [catch] block's log line,
    [error instanceof Error ? error.message : String(error)]: evaluating
    it throws when [String(error)] does. *)
Definition printError (error : jsval) : completion unit :=
  if instanceofError error then Normal tt
  else if stringThrows error
       then Thrown (TypeError "Cannot convert object to primitive value")
       else Normal tt.

(** The exported handler.  The outer [catch] writes to the console
    before it answers: the output is not part of the model, the
    evaluation of what it prints is. *)
Definition handler (request : VercelRequest) (response : VercelResponse)
  : M DB VercelResponse :=
  if String.eqb (method request) "OPTIONS"
  then ret (end_ (status 200 (setCorsHeaders response)))
  else
    let response := setCorsHeaders response in
    tryCatch
      (if String.eqb (method request) "POST" then
         let! recipeId := liftCompletion (destructure (body request) "recipeId") in
         if negb (truthy recipeId)
         then ret (json (errorBody "Recipe ID is required") (status 400 response))
         else
           let! favouriteRecipe := create recipeId in
           ret (json favouriteRecipe (status 201 response))
       else if String.eqb (method request) "GET" then
         let! recipes := findMany in
         let recipeIds := map (fun recipe => toString (recipeId recipe)) recipes in
         if Z.of_nat (length recipeIds) =? 0
         then ret (json (VObj [("results", VArr [])]) (status 200 response))
         else
           tryCatch
             (let! favourites := callGetFavouriteRecipesByIDs recipeIds in
              ret (json favourites (status 200 response)))
             (fun apiError =>
                let! limit := liftCompletion (isApiLimitError apiError) in
                if limit : bool
                then ret (json (degradedBody recipeIds) (status 200 response))
                else throw apiError)
       else if String.eqb (method request) "DELETE" then
         let! recipeId := liftCompletion (destructure (body request) "recipeId") in
         if negb (truthy recipeId)
         then ret (json (errorBody "Recipe ID is required") (status 400 response))
         else
           let! _deleted := delete_ recipeId in
           ret (end_ (status 204 response))
       else ret (json (errorBody "Method not allowed") (status 405 response)))
      (fun error =>
         let! _printed := liftCompletion (printError error) in
         if instanceofError error && messageIncludes error "Unique constraint"
         then ret (json (errorBody "Recipe is already in favorites") (status 409 response))
         else ret (json (VObj [("error", VStr "Oops, something went wrong");
                               ("message", if instanceofError error
                                           then getProp error "message"
                                           else VStr "Unknown error")])
                        (status 500 response))).

End Handler.

(** ** Two databases to run the handler against *)

(** Modelled from the spec: the persisted favourites store (the schema
    and the Prisma client are not among the sources).  It offers
    create, list and delete over unique integer recipe IDs, and a
    uniqueness violation surfaces as a distinguishable error.  The table
    is the list of stored IDs in insertion order. *)
Module MemStore.

Definition DB : Type := list Z.

Definition mem (n : Z) (d : DB) : bool := existsb (Z.eqb n) d.

Definition create (v : jsval) (d : DB) : completion jsval * DB :=
  match v with
  | VNum n =>
      if mem n d
      then (Thrown (VError "Unique constraint failed on the fields: (recipeId)"
                           [("code", VStr "P2002")]), d)
      else (Normal (VObj [("recipeId", VNum n)]), (d ++ [n])%list)
  | _ => (Thrown (VError "Argument recipeId: Invalid value provided. Expected Int." []), d)
  end.

Definition findMany (d : DB) : completion (list FavouriteRecord) :=
  Normal (map Build_FavouriteRecord d).

Definition delete (v : jsval) (d : DB) : completion unit * DB :=
  match v with
  | VNum n => (Normal tt, filter (fun m => negb (m =? n)) d)
  | _ => (Thrown (VError "Argument recipeId: Invalid value provided. Expected Int." []), d)
  end.

#[global] Instance store : PrismaFavouriteRecipes DB := {
  prisma_create := create;
  prisma_findMany := findMany;
  prisma_delete := delete;
  persisted := fun d => d
}.

End MemStore.

(** A database that cannot be reached: every query throws the
    connection error the handler's [catch] block looks for when it
    logs. *)
Module OfflineStore.

Definition connectionError : jsval :=
  VError "Authentication failed against database server" [].

#[global] Instance store : PrismaFavouriteRecipes unit := {
  prisma_create := fun _ d => (Thrown connectionError, d);
  prisma_findMany := fun _ => Thrown connectionError;
  prisma_delete := fun _ d => (Thrown connectionError, d);
  persisted := fun _ => []
}.

End OfflineStore.

(** ** The upstream resolver *)

(** Modelled from the spec: [getFavouriteRecipesByIDs] of
    lib/recipe-api.ts is not among the sources.  Per the Favourites
    Resolver contract it calls the bulk-detail endpoint once with all
    IDs; on success it returns one ResolvedFavourite per ID in the order
    requested, the upstream answer being re-keyed by ID; a failure of
    the endpoint is thrown to the caller.  A ResolvedFavourite is the
    upstream record with the ID or, for an ID the upstream answer
    lacks, a DegradedRecord {id, placeholderTitle, apiUnavailable:
    true}.  [bulk] stands for the endpoint and [placeholderTitle] for
    the title text, which the spec leaves open. *)
Module RecipeApi.

Definition hasId (id : string) (recipe : jsval) : bool :=
  match getProp recipe "id", parseInt id with
  | VNum a, VNum b => a =? b
  | _, _ => false
  end.

Definition DegradedRecord (placeholderTitle : string -> string) (id : string) : jsval :=
  VObj [("id", parseInt id);
        ("placeholderTitle", VStr (placeholderTitle id));
        ("apiUnavailable", VBool true)].

Definition rekey (placeholderTitle : string -> string) (ids : list string)
    (upstream : list jsval) : list jsval :=
  map (fun id => match find (hasId id) upstream with
                 | Some recipe => recipe
                 | None => DegradedRecord placeholderTitle id
                 end) ids.

Definition getFavouriteRecipesByIDs (placeholderTitle : string -> string)
    (bulk : list string -> completion (list jsval)) (ids : list string)
  : completion jsval :=
  match bulk ids with
  | Normal recipes =>
      Normal (VObj [("results", VArr (rekey placeholderTitle ids recipes))])
  | Thrown e => Thrown e
  end.

End RecipeApi.

(** ** The key rotator *)

(** Modelled from the spec: lib/api-key-tracker.ts is not among the
    sources.  A credential is an opaque identifier with a quota state;
    the rotator holds them in fixed priority order and never removes
    one.  [selectCredential] returns the first credential that is not
    marked exhausted and fails with [NoCredentialsAvailable] when there
    is none; [markExhausted] sets the flag, and nothing clears it. *)
Module KeyRotator.

Inductive QuotaState : Type := ok | exhausted | unknown.

Record Credential : Type := {
  ident : string;
  quota : QuotaState
}.

Definition Rotator : Type := list Credential.

Inductive SelectError : Type := NoCredentialsAvailable.

Definition usable (c : Credential) : bool :=
  match quota c with
  | exhausted => false
  | ok | unknown => true
  end.

Definition selectCredential (r : Rotator) : string + SelectError :=
  match find usable r with
  | Some c => inl (ident c)
  | None => inr NoCredentialsAvailable
  end.

Definition markExhausted (c : string) (r : Rotator) : Rotator :=
  map (fun x => if String.eqb (ident x) c
                then {| ident := ident x; quota := exhausted |}
                else x) r.

(** The calls one process makes to the rotator, in order. *)
Inductive Call : Type :=
| CallSelect
| CallMarkExhausted (c : string).

(** Runs the calls and collects what each [selectCredential] returned. *)
Fixpoint run (calls : list Call) (r : Rotator) : list (string + SelectError) * Rotator :=
  match calls with
  | [] => ([], r)
  | CallSelect :: rest =>
      let '(outs, r') := run rest r in (selectCredential r :: outs, r')
  | CallMarkExhausted c :: rest => run rest (markExhausted c r)
  end.

Definition marked (calls : list Call) : list string :=
  omap (fun call => match call with
                    | CallMarkExhausted c => Some c
                    | CallSelect => None
                    end) calls.

(** Invariants of the rotator: every credential named [c] is
    exhausted; every credential is exhausted. *)
Definition exhaustedFor (c : string) (r : Rotator) : Prop :=
  forall x, In x r -> ident x = c -> quota x = exhausted.

Definition allExhausted (r : Rotator) : Prop :=
  forall x, In x r -> quota x = exhausted.

End KeyRotator.

(** ** Vocabulary of the statements *)

(** The value of a digit list read most significant digit first. *)
Fixpoint uintValue (d : Decimal.uint) (acc : Z) : Z :=
  match d with
  | Decimal.Nil => acc
  | Decimal.D0 l => uintValue l (10 * acc)
  | Decimal.D1 l => uintValue l (10 * acc + 1)
  | Decimal.D2 l => uintValue l (10 * acc + 2)
  | Decimal.D3 l => uintValue l (10 * acc + 3)
  | Decimal.D4 l => uintValue l (10 * acc + 4)
  | Decimal.D5 l => uintValue l (10 * acc + 5)
  | Decimal.D6 l => uintValue l (10 * acc + 6)
  | Decimal.D7 l => uintValue l (10 * acc + 7)
  | Decimal.D8 l => uintValue l (10 * acc + 8)
  | Decimal.D9 l => uintValue l (10 * acc + 9)
  end.

(** Requests by method. *)
Definition GET (b : jsval) : VercelRequest := {| method := "GET"; body := b |}.
Definition POST (b : jsval) : VercelRequest := {| method := "POST"; body := b |}.
Definition DELETE (b : jsval) : VercelRequest := {| method := "DELETE"; body := b |}.

(** A fresh response object and a world in which nothing was called. *)
Definition freshResponse : VercelResponse :=
  {| statusCode := 200; headers := ∅; sent := NotSent |}.

Definition startWorld {DB} (d : DB) : World DB :=
  {| db := d; queries := []; upstreamCalls := [] |}.

(** The three CORS headers are on the response. *)
Definition hasCorsHeaders (r : VercelResponse) : Prop :=
  getHeader "Access-Control-Allow-Origin" r = Some "*" /\
  getHeader "Access-Control-Allow-Methods" r = Some "GET, POST, DELETE, OPTIONS" /\
  getHeader "Access-Control-Allow-Headers" r = Some "Content-Type".

(** The falsy values a JSON body can carry in [recipeId]: 0, the empty
    string, null and false. *)
Definition listedFalsy (v : jsval) : Prop :=
  v = VNum 0 \/ v = VStr "" \/ v = VNull \/ v = VBool false.

(** The upstream error reports quota exhaustion: its code is 402, or
    its message contains one of the two quota markers. *)
Definition reportsQuota (e : jsval) : Prop :=
  optChain e "code" = VNum 402 \/
  exists m, optChain e "message" = VStr m /\
            (includes m "points limit" = true \/ includes m "daily limit" = true).

(** The degraded record for a stored ID: the ID itself, a placeholder
    title, no image, and the flag [_apiUnavailable] set. *)
Definition placeholderFor (n : Z) : jsval :=
  VObj [("id", VNum n);
        ("title", VStr ("Recipe #" ++ toString n ++ " (Details unavailable - API limit reached)"));
        ("image", VNull);
        ("_apiUnavailable", VBool true)].

(** [recipeIds] as the handler computes it from the rows. *)
Definition storedIds (rows : list FavouriteRecord) : list string :=
  map (fun recipe => toString (recipeId recipe)) rows.

(** [String(e)] need not be evaluated, or returns: the [catch] block
    can print [e]. *)
Definition printable (e : jsval) : bool :=
  instanceofError e || negb (stringThrows e).

(** Whatever [c] throws can be printed. *)
Definition throwsPrintable {A : Type} (c : completion A) : Prop :=
  forall e, c = Thrown e -> printable e = true.

(** [marker] occurs somewhere in [s]. *)
Definition contains (s marker : string) : Prop :=
  exists pre post, s = pre ++ marker ++ post.

(** What the outer [catch] takes for a duplicate favourite: an Error
    whose message contains "Unique constraint". *)
Definition uniqueConstraintError (e : jsval) : bool :=
  instanceofError e && messageIncludes e "Unique constraint".

(** The [id] of each result, in order. *)
Definition idsOf (results : list jsval) : list jsval :=
  map (fun x => getProp x "id") results.

(** ** Sample errors, recipes and upstream behaviours *)

Definition quotaError : jsval := VError "Payment Required" [("code", VNum 402)].

Definition timeoutError : jsval := VError "fetch failed" [].

Definition uniqueUpstreamError : jsval :=
  VError "Unique constraint failed on the fields: (recipeId)" [].

(** A thrown object that [String] cannot convert: its own [toString]
    is not callable, and [valueOf] returns the object itself. *)
Definition unprintableObject : jsval := VObj [("toString", VNum 1)].

(** A database whose every query throws [e]. *)
Definition throwingStore (e : jsval) : PrismaFavouriteRecipes unit := {|
  prisma_create := fun _ d => (Thrown e, d);
  prisma_findMany := fun _ => Thrown e;
  prisma_delete := fun _ d => (Thrown e, d);
  persisted := fun _ => []
|}.

Definition upstreamThrows (e : jsval) : list string -> completion jsval :=
  fun _ => Thrown e.

Definition recipe (n : Z) (title : string) : jsval :=
  VObj [("id", VNum n); ("title", VStr title)].

Definition bodyWith (v : jsval) : jsval := VObj [("recipeId", v)].

Definition sampleRotator : KeyRotator.Rotator :=
  [ {| KeyRotator.ident := "key-1"; KeyRotator.quota := KeyRotator.ok |};
    {| KeyRotator.ident := "key-2"; KeyRotator.quota := KeyRotator.unknown |} ].

(** The status codes the handler writes. *)
Definition handlerStatuses : list Z := [200; 201; 204; 400; 405; 409; 500].

(** A thrown value that is not an object: undefined, null, a boolean,
    a number or a string. *)
Definition isPrimitive (v : jsval) : bool :=
  match v with
  | VArr _ | VObj _ | VError _ _ => false
  | _ => true
  end.

(** ** auth.ts: the NextAuth callbacks *)

(** The credentials [authorize] function and the [jwt] and [session]
    callbacks of the NextAuth configuration (src/unnamed/part_003). *)
Module Auth.

(** [obj.k = v] on an object written as the list of its properties: an
    existing property is overwritten in place, a new one is added at the
    end. *)
Fixpoint setAssoc (k : string) (v : jsval) (props : list (string * jsval))
  : list (string * jsval) :=
  match props with
  | [] => [(k, v)]
  | (k', v') :: rest =>
      if String.eqb k' k then (k, v) :: rest else (k', v') :: setAssoc k v rest
  end.

(** [a || b] for a [b] whose evaluation has no effect. *)
Definition orElse (a b : jsval) : jsval := if truthy a then a else b.

(** [v === s] for a string literal [s]. *)
Definition strictEqStr (v : jsval) (s : string) : bool :=
  match v with
  | VStr t => String.eqb t s
  | _ => false
  end.

(** [s.split("@")[0]]: what precedes the first "@", or all of [s] when
    it has none. *)
Fixpoint beforeAt (s : string) : string :=
  match s with
  | EmptyString => EmptyString
  | String c rest => if Ascii.eqb c "@" then EmptyString else String c (beforeAt rest)
  end.

(** [email?.split("@")[0]]: [None] stands for undefined. *)
Definition emailPrefix (email : jsval) : completion (option string) :=
  match email with
  | VUndefined | VNull => Normal None
  | VStr s => Normal (Some (beforeAt s))
  | _ => Thrown (TypeError "user.email?.split is not a function")
  end.

(** [prefix + "_" + Date.now()], where an undefined prefix prints as
    "undefined". *)
Definition idFromEmail (prefix : option string) (now : Z) : string :=
  match prefix with
  | Some p => p
  | None => "undefined"
  end ++ "_" ++ toString now.

Section Authorize.

(** [String.prototype.trim] and [toLowerCase]. *)
Variable trim toLowerCase : string -> string.

(** [prisma.user.findUnique({ where: { email } })]: the user row, or
    null. *)
Variable findUnique : string -> completion jsval.

(** [bcrypt.compare(password, hash)] *)
Variable compare : jsval -> jsval -> completion bool.

(** The user object [authorize] returns for a database row. *)
Definition userOf (dbUser : jsval) : jsval :=
  VObj [("id", getProp dbUser "id");
        ("email", getProp dbUser "email");
        ("name", orElse (getProp dbUser "name") VUndefined);
        ("image", orElse (getProp dbUser "picture") VUndefined)].

(** [email.trim().toLowerCase()] *)
Definition normalizeEmail (email : jsval) : completion string :=
  match email with
  | VStr s => Normal (toLowerCase (trim s))
  | _ => Thrown (TypeError "email.trim is not a function")
  end.

Definition authorize (credentials : jsval) : completion jsval :=
  if negb (truthy (optChain credentials "email")) ||
     negb (truthy (optChain credentials "password"))
  then Normal VNull
  else
    let email := getProp credentials "email" in
    let password := getProp credentials "password" in
    match
      match normalizeEmail email with
      | Thrown e => Thrown e
      | Normal key =>
          match findUnique key with
          | Thrown e => Thrown e
          | Normal dbUser =>
              if negb (truthy dbUser) || negb (truthy (getProp dbUser "password"))
              then Normal VNull
              else
                match compare password (getProp dbUser "password") with
                | Thrown e => Thrown e
                | Normal isValidPassword =>
                    if isValidPassword : bool
                    then Normal (userOf dbUser)
                    else Normal VNull
                end
          end
      end
    with
    | Normal result => Normal result
    | Thrown _ => Normal VNull
    end.

End Authorize.

(** [user.id || user.email?.split("@")[0] + "_" + Date.now() ||
    `user_${Date.now()}`]; [now] is what [Date.now()] returns. *)
Definition generatedId (user : jsval) (now : Z) : completion jsval :=
  if truthy (getProp user "id") then Normal (getProp user "id")
  else
    match emailPrefix (getProp user "email") with
    | Thrown e => Thrown e
    | Normal prefix =>
        Normal (orElse (VStr (idFromEmail prefix now)) (VStr ("user_" ++ toString now)))
    end.

(** The [jwt] callback: [token] is the JWT object, which the callback
    updates and returns. *)
Definition jwt (now : Z) (token : list (string * jsval)) (user account profile : jsval)
  : completion (list (string * jsval)) :=
  match
    if truthy user
    then
      match generatedId user now with
      | Thrown e => Thrown e
      | Normal id =>
          let token := setAssoc "id" id token in
          let token := setAssoc "email" (getProp user "email") token in
          let token := setAssoc "name" (getProp user "name") token in
          Normal (if truthy (getProp user "image")
                  then setAssoc "picture" (getProp user "image") token
                  else token)
      end
    else Normal token
  with
  | Thrown e => Thrown e
  | Normal token =>
      let token :=
        if truthy profile && strictEqStr (optChain account "provider") "google"
        then if truthy (getProp profile "picture")
             then setAssoc "picture" (getProp profile "picture") token
             else token
        else token in
      let token :=
        if truthy account && negb (strictEqStr (getProp account "provider") "credentials")
        then setAssoc "expiresAt" (getProp account "expires_at")
               (setAssoc "refreshToken" (getProp account "refresh_token")
                  (setAssoc "accessToken" (getProp account "access_token") token))
        else token in
      Normal token
  end.

(** The session object: [user], which may be absent, and its other
    properties (types/next-auth.d.ts). *)
Record Session : Type := {
  user : option (list (string * jsval));
  others : list (string * jsval)
}.

(** The [session] callback. *)
Definition session (s : Session) (token : list (string * jsval)) : Session :=
  match user s with
  | Some u =>
      let u := setAssoc "id" (assoc "id" token) u in
      let u := setAssoc "accessToken" (assoc "accessToken" token) u in
      let u := if truthy (assoc "picture" token)
               then setAssoc "image" (assoc "picture" token) u
               else u in
      {| user := Some u; others := others s |}
  | None => s
  end.

End Auth.

(** ** app/api/auth/signup-nextauth/route.ts: the sign-up route *)

Module Signup.

(** What the route does to the outside, in order: the two Prisma
    queries, the bcrypt hash and the Sentry report.  (Console output is
    left out.) *)
Inductive Effect : Type :=
| FindUnique (email : string)
| Hash (password : jsval) (saltRounds : Z)
| Create (data : jsval)
| CaptureException (error : jsval).

(** A computation that performs effects and completes normally or
    abruptly. *)
Definition Eff (A : Type) : Type := list Effect * completion A.

Definition pure {A} (a : A) : Eff A := ([], Normal a).

Definition raise {A} (e : jsval) : Eff A := ([], Thrown e).

Definition andThen {A B} (m : Eff A) (k : A -> Eff B) : Eff B :=
  match m with
  | (trace, Normal a) => let '(trace', c) := k a in ((trace ++ trace')%list, c)
  | (trace, Thrown e) => (trace, Thrown e)
  end.

(** An awaited call: the effect, then its outcome. *)
Definition perform {A} (effect : Effect) (outcome : completion A) : Eff A :=
  ([effect], outcome).

Definition lift {A} (c : completion A) : Eff A := ([], c).

Notation "'let?' x ':=' m 'in' k" := (andThen m (fun x => k))
  (at level 10, x name, m at level 100, k at level 200).

(** What the route takes from outside this file: [jsonResponse] and
    [handleCorsPreflight] of lib/api-utils-nextjs, the request's
    [json()], the string built-ins, the coercions of a value that is not
    of the expected type, Prisma, bcrypt and the clock. *)
Class Platform : Type := {
  Response : Type;
  NextRequest : Type;
  jsonResponse : jsval -> Z -> Response;
  handleCorsPreflight : NextRequest -> option Response;
  requestJson : NextRequest -> completion jsval;
  (** the character class [\s], which is also what [trim] strips; it
      holds neither "@" nor "." *)
  isSpace : ascii -> bool;
  isSpace_at : isSpace "@" = false;
  isSpace_dot : isSpace "." = false;
  (** [String.prototype.toLowerCase] *)
  toLowerCase : string -> string;
  (** [ToString] of a value that is not a string, and [v < n] for a [v]
      that is a string or an object *)
  coercedToString : jsval -> string;
  coercedLessThan : jsval -> Z -> bool;
  (** [prisma.user.findUnique], [bcrypt.hash], [prisma.user.create] and
      [Date.now()] *)
  findUnique : string -> completion jsval;
  hash : jsval -> Z -> completion jsval;
  create : jsval -> completion jsval;
  now : Z
}.

Section Route.

Context {platform : Platform}.

(** [String.prototype.trim] *)
Fixpoint trimStart (s : string) : string :=
  match s with
  | String c rest => if isSpace c then trimStart rest else s
  | EmptyString => s
  end.

Fixpoint trimEnd (s : string) : string :=
  match s with
  | EmptyString => EmptyString
  | String c rest =>
      match trimEnd rest with
      | EmptyString => if isSpace c then EmptyString else String c EmptyString
      | kept => String c kept
      end
  end.

Definition trim (s : string) : string := trimEnd (trimStart s).

(** [[^\s@]]: neither white space nor "@". *)
Definition plainChar (c : ascii) : bool := negb (isSpace c) && negb (Ascii.eqb c "@").

Fixpoint allPlain (s : string) : bool :=
  match s with
  | EmptyString => true
  | String c rest => plainChar c && allPlain rest
  end.

(** What follows the first "@", if there is one. *)
Fixpoint afterAt (s : string) : option string :=
  match s with
  | EmptyString => None
  | String c rest => if Ascii.eqb c "@" then Some rest else afterAt rest
  end.

(** Some "." of [s] has at least one character after it. *)
Fixpoint dotBeforeEnd (s : string) : bool :=
  match s with
  | EmptyString => false
  | String c rest =>
      (Ascii.eqb c "." && negb (String.eqb rest "")) || dotBeforeEnd rest
  end.

(** [/^[^\s@]+@[^\s@]+\.[^\s@]+$/.test(s)]: a non-empty plain local
    part, the first "@", then plain characters among which a "." that is
    neither the first nor the last of them. *)
Definition emailRegexTest (s : string) : bool :=
  negb (String.eqb (Auth.beforeAt s) "") && allPlain (Auth.beforeAt s) &&
  match afterAt s with
  | Some (String c rest) => allPlain (String c rest) && dotBeforeEnd rest
  | _ => false
  end.

(** No character of [s] is white space. *)
Fixpoint noSpace (s : string) : bool :=
  match s with
  | EmptyString => true
  | String c rest => negb (isSpace c) && noSpace rest
  end.

(** [const { email, password, name } = body]: the first property read;
    destructuring null or undefined throws. *)
Definition destructureBody (body : jsval) : completion jsval :=
  if isNullish body
  then Thrown (TypeError
         ("Cannot destructure property 'email' of 'body' as it is " ++
          (match body with VNull => "null" | _ => "undefined" end) ++ "."))
  else Normal (getProp body "email").

(** [ToString(v)] *)
Definition toText (v : jsval) : string :=
  match v with
  | VStr s => s
  | _ => coercedToString v
  end.

(** [v.length] for a truthy [v] *)
Definition lengthOf (v : jsval) : jsval :=
  match v with
  | VStr s => VNum (Z.of_nat (String.length s))
  | VArr elems => VNum (Z.of_nat (length elems))
  | _ => getProp v "length"
  end.

(** [v < n] for a number literal [n] *)
Definition lessThan (v : jsval) (n : Z) : bool :=
  match v with
  | VNum m => m <? n
  | VUndefined | VNaN => false
  | VNull => 0 <? n
  | VBool b => (if b then 1 else 0) <? n
  | _ => coercedLessThan v n
  end.

(** [email.trim().toLowerCase()] *)
Definition normalizedEmail (email : jsval) : completion string :=
  match email with
  | VStr s => Normal (toLowerCase (trim s))
  | _ => Thrown (TypeError "email.trim is not a function")
  end.

(** [email.split("@")[0]], evaluated after [email.trim()] succeeded *)
Definition localPart (email : jsval) : completion string :=
  match email with
  | VStr s => Normal (Auth.beforeAt s)
  | _ => Thrown (TypeError "email.split is not a function")
  end.

(** [name?.trim() || null] *)
Definition trimmedName (name : jsval) : completion jsval :=
  match name with
  | VUndefined | VNull => Normal VNull
  | VStr n => Normal (Auth.orElse (VStr (trim n)) VNull)
  | _ => Thrown (TypeError "name?.trim is not a function")
  end.

Definition userExists : jsval :=
  VObj [("error", VStr "User already exists");
        ("message", VStr "An account with this email already exists. Please sign in instead.")].

(** The [catch] block. *)
Definition handleError (error : jsval) : Response :=
  if instanceofError error &&
     (messageIncludes error "Unique constraint" || messageIncludes error "Unique")
  then jsonResponse userExists 409
  else if instanceofError error &&
          (messageIncludes error "connect" || messageIncludes error "timeout")
  then jsonResponse
         (VObj [("error", VStr "Database error");
                ("message", VStr "Failed to connect to database. Please try again.")])
         500
  else jsonResponse
         (VObj [("error", VStr "Sign up failed");
                ("message", if instanceofError error
                            then getProp error "message"
                            else VStr "Unknown error occurred")])
         500.

(** The [try] block. *)
Definition attempt (request : NextRequest) : Eff Response :=
  let? body := lift (requestJson request) in
  let? email := lift (destructureBody body) in
  let password := getProp body "password" in
  let name := getProp body "name" in
  if negb (truthy email) || negb (truthy password)
  then pure (jsonResponse (VObj [("error", VStr "Email and password are required")]) 400)
  else if lessThan (lengthOf password) 6
  then pure (jsonResponse
               (VObj [("error", VStr "Password must be at least 6 characters long")]) 400)
  else if negb (emailRegexTest (toText email))
  then pure (jsonResponse (VObj [("error", VStr "Invalid email format")]) 400)
  else
    let? key := lift (normalizedEmail email) in
    let? existingUser := perform (FindUnique key) (findUnique key) in
    if truthy existingUser
    then pure (jsonResponse userExists 409)
    else
      let saltRounds := 10 in
      let? hashedPassword := perform (Hash password saltRounds) (hash password saltRounds) in
      let? prefix := lift (localPart email) in
      let userId := "user_" ++ prefix ++ "_" ++ toString now in
      let? storedEmail := lift (normalizedEmail email) in
      let? storedName := lift (trimmedName name) in
      let data := VObj [("id", VStr userId);
                        ("email", VStr storedEmail);
                        ("name", storedName);
                        ("password", hashedPassword);
                        ("picture", VNull)] in
      let? newUser := perform (Create data) (create data) in
      if isNullish newUser
      then raise (TypeError
                    ("Cannot read properties of " ++
                     (match newUser with VNull => "null" | _ => "undefined" end) ++
                     " (reading 'email')"))
      else
        pure (jsonResponse
                (VObj [("success", VBool true);
                       ("message", VStr "Account created successfully! Please sign in.");
                       ("user", VObj [("id", getProp newUser "id");
                                      ("email", getProp newUser "email");
                                      ("name", getProp newUser "name")])])
                201).

(** The exported [POST]: the response and the effects performed. *)
Definition POST (request : NextRequest) : Response * list Effect :=
  match handleCorsPreflight request with
  | Some corsResponse => (corsResponse, [])
  | None =>
      match attempt request with
      | (trace, Normal response) => (response, trace)
      | (trace, Thrown error) =>
          (handleError error, (trace ++ [CaptureException error])%list)
      end
  end.

End Route.

End Signup.

(** ** Sample users, credentials and platform *)

Definition storedUser : jsval :=
  VObj [("id", VStr "user_ada_1");
        ("email", VStr "ada@site.io");
        ("name", VStr "Ada");
        ("password", VStr "hash:secret1");
        ("picture", VNull)].

(** A user table with the one row [storedUser]. *)
Definition sampleFindUnique (email : string) : completion jsval :=
  Normal (if String.eqb email "ada@site.io" then storedUser else VNull).

(** A stand-in for bcrypt: the hash of [p] is "hash:" followed by [p]. *)
Definition sampleHash (password : jsval) (saltRounds : Z) : completion jsval :=
  match password with
  | VStr p => Normal (VStr ("hash:" ++ p))
  | _ => Thrown (VError "Illegal arguments" [])
  end.

Definition sampleCompare (password stored : jsval) : completion bool :=
  match password, stored with
  | VStr p, VStr h => Normal (String.eqb ("hash:" ++ p) h)
  | _, _ => Thrown (VError "Illegal arguments" [])
  end.

(** The row [create] returns under the route's [select]. *)
Definition sampleCreate (data : jsval) : completion jsval :=
  Normal (VObj [("id", getProp data "id");
                ("email", getProp data "email");
                ("name", getProp data "name")]).

Definition samplePlatform : Signup.Platform := {|
  Signup.Response := jsval * Z;
  Signup.NextRequest := completion jsval;
  Signup.jsonResponse := fun data code => (data, code);
  Signup.handleCorsPreflight := fun _ => None;
  Signup.requestJson := fun request => request;
  Signup.isSpace := isWhiteSpace;
  Signup.isSpace_at := eq_refl;
  Signup.isSpace_dot := eq_refl;
  Signup.toLowerCase := lowerCase;
  Signup.coercedToString := fun _ => "[object Object]";
  Signup.coercedLessThan := fun _ _ => false;
  Signup.findUnique := sampleFindUnique;
  Signup.hash := sampleHash;
  Signup.create := sampleCreate;
  Signup.now := 1700000000000
|}.

Definition unreachableError : jsval :=
  VError "Can't reach database server: connect ECONNREFUSED" [].

(** [samplePlatform] with the database down. *)
Definition offlinePlatform : Signup.Platform := {|
  Signup.Response := jsval * Z;
  Signup.NextRequest := completion jsval;
  Signup.jsonResponse := fun data code => (data, code);
  Signup.handleCorsPreflight := fun _ => None;
  Signup.requestJson := fun request => request;
  Signup.isSpace := isWhiteSpace;
  Signup.isSpace_at := eq_refl;
  Signup.isSpace_dot := eq_refl;
  Signup.toLowerCase := lowerCase;
  Signup.coercedToString := fun _ => "[object Object]";
  Signup.coercedLessThan := fun _ _ => false;
  Signup.findUnique := fun _ => Thrown unreachableError;
  Signup.hash := sampleHash;
  Signup.create := sampleCreate;
  Signup.now := 1700000000000
|}.

Definition signupBody (email password : string) : jsval :=
  VObj [("email", VStr email); ("password", VStr password)].

Definition loginWith (email password : string) : jsval :=
  VObj [("email", VStr email); ("password", VStr password)].

Definition sampleSession : Auth.Session :=
  {| Auth.user := Some [("name", VStr "Ada"); ("email", VStr "ada@site.io")];
     Auth.others := [("expires", VStr "2026-12-01T00:00:00.000Z")] |}.

Definition googleAccount : jsval :=
  VObj [("provider", VStr "google");
        ("access_token", VStr "ya29.token");
        ("refresh_token", VStr "1//refresh");
        ("expires_at", VNum 1700003600)].

(** * Properties *)

(** ** Decimal printing and [parseInt] *)

Section Decimal.

Local Open Scope char_scope.

Lemma of_uint_acc_value (d : Decimal.uint) (p : positive) :
  Z.pos (Pos.of_uint_acc d p) = uintValue d (Z.pos p).
Proof.
  revert p.
  induction d; intros p; cbn [Pos.of_uint_acc uintValue]; try reflexivity;
    rewrite IHd; f_equal; lia.
Qed.

Lemma of_uint_value (d : Decimal.uint) :
  Z.of_N (Pos.of_uint d) = uintValue d 0.
Proof.
  induction d; cbn [Pos.of_uint uintValue Z.of_N]; try reflexivity;
    try assumption; rewrite of_uint_acc_value; reflexivity.
Qed.

Ltac eval_digit :=
  match goal with
  | |- context [digitValue ?r ?c] =>
      let v := eval vm_compute in (digitValue r c) in
      change (digitValue r c) with v; cbv beta iota
  end.

Lemma parseDigits_uint (d : Decimal.uint) (acc : Z) :
  parseDigits 10 (NilEmpty.string_of_uint d) (Some acc) = Some (uintValue d acc).
Proof.
  revert acc.
  induction d; intros acc;
    cbn [NilEmpty.string_of_uint parseDigits uintValue]; try reflexivity;
    eval_digit; rewrite IHd; f_equal; f_equal; lia.
Qed.

Lemma parseDigits_first (d : Decimal.uint) :
  d <> Decimal.Nil ->
  parseDigits 10 (NilEmpty.string_of_uint d) None = Some (uintValue d 0).
Proof.
  destruct d; intros Hd; try congruence;
    cbn [NilEmpty.string_of_uint parseDigits uintValue];
    eval_digit; rewrite parseDigits_uint; f_equal.
Qed.

(** A printed digit string has no white space, sign or [0x] prefix for
    [parseInt] to strip. *)
Lemma parseInt_uint (d : Decimal.uint) :
  d <> Decimal.Nil ->
  parseInt (NilEmpty.string_of_uint d) = VNum (uintValue d 0) /\
  parseInt (String "-" (NilEmpty.string_of_uint d)) = VNum (- uintValue d 0).
Proof.
  intros Hd. pose proof (parseDigits_first d Hd) as Hp.
  unfold parseInt.
  destruct d as [|l|l|l|l|l|l|l|l|l|l]; try congruence.
  2-10: cbn [NilEmpty.string_of_uint trimStart isWhiteSpace] in *.
  2-10: rewrite Hp; split; reflexivity.
  destruct l; cbn [NilEmpty.string_of_uint trimStart isWhiteSpace] in *;
    rewrite Hp; split; reflexivity.
Qed.

End Decimal.

(** [parseInt] undoes [toString] on every integer. *)
Lemma parseInt_toString (n : Z) : parseInt (toString n) = VNum n.
Proof.
  unfold toString. destruct n as [|p|p]; [reflexivity| |];
    cbn [Z.to_int NilZero.string_of_int];
    pose proof (Unsigned.to_uint_nonnil p) as Hnn;
    destruct (parseInt_uint (Pos.to_uint p) Hnn) as [Hpos Hneg];
    pose proof (Unsigned.of_to p) as Hof;
    apply (f_equal Z.of_N) in Hof; rewrite of_uint_value in Hof;
    unfold NilZero.string_of_uint;
    destruct (Pos.to_uint p) eqn:E; try congruence.
  all: try (rewrite Hpos, Hof; reflexivity).
  all: try (rewrite Hneg, Hof; reflexivity).
Qed.

(** ** The handler's answers *)

Lemma setCorsHeaders_has (response : VercelResponse) :
  hasCorsHeaders (setCorsHeaders response).
Proof.
  unfold hasCorsHeaders, getHeader, setCorsHeaders, setHeader; cbn [headers].
  change (lowerCase "Access-Control-Allow-Origin") with "access-control-allow-origin".
  change (lowerCase "Access-Control-Allow-Methods") with "access-control-allow-methods".
  change (lowerCase "Access-Control-Allow-Headers") with "access-control-allow-headers".
  repeat split.
  - rewrite !lookup_insert_ne by discriminate. apply lookup_insert_eq.
  - rewrite lookup_insert_ne by discriminate. apply lookup_insert_eq.
  - apply lookup_insert_eq.
Qed.

Ltac by_method Hm :=
  unfold handler; rewrite Hm;
  cbn [String.eqb Ascii.eqb Bool.eqb];
  unfold tryCatch, bind, ret, throw, liftCompletion.

(** Splits on what the [catch] block does with the error it caught. *)
Ltac catch_cases :=
  repeat match goal with
         | |- context [printError ?e] => destruct (printError e)
         end;
  repeat match goal with
         | |- context [instanceofError ?e && ?m] => destruct (instanceofError e && m)
         end.

Section Answers.

Context {DB : Type} {prisma : PrismaFavouriteRecipes DB}.
Variable getFavouriteRecipesByIDs : list string -> completion jsval.

Lemma printError_error (e : jsval) :
  instanceofError e = true -> printError e = Normal tt.
Proof.
  unfold printError. intros ->. reflexivity.
Qed.

Lemma printError_printable (e : jsval) :
  printable e = true -> printError e = Normal tt.
Proof.
  unfold printable, printError.
  destruct (instanceofError e); [reflexivity|].
  destruct (stringThrows e); [discriminate|reflexivity].
Qed.

Lemma printError_unprintable (e : jsval) :
  printable e = false ->
  printError e = Thrown (TypeError "Cannot convert object to primitive value").
Proof.
  unfold printable, printError.
  destruct (instanceofError e); [discriminate|].
  destruct (stringThrows e); [reflexivity|discriminate].
Qed.

(** C9.  A request whose method is none of GET, POST, DELETE and
    OPTIONS is answered 405 with the body {error: "Method not allowed"};
    the CORS headers are on that response, and neither the store nor the
    upstream API is touched. *)
Theorem method_not_allowed (request : VercelRequest) (response : VercelResponse)
    (w : World DB) :
  method request <> "GET" -> method request <> "POST" ->
  method request <> "DELETE" -> method request <> "OPTIONS" ->
  exists r,
    handler getFavouriteRecipesByIDs request response w = (Normal r, w) /\
    statusCode r = 405 /\
    sent r = Json (VObj [("error", VStr "Method not allowed")]) /\
    hasCorsHeaders r.
Proof.
  intros Hget Hpost Hdel Hopt.
  apply String.eqb_neq in Hget, Hpost, Hdel, Hopt.
  unfold handler. rewrite Hget, Hpost, Hdel, Hopt.
  unfold tryCatch, ret.
  eexists; split; [reflexivity|].
  repeat split; apply setCorsHeaders_has.
Qed.

(** C3.  When the favourites table holds no row, GET is answered 200
    with the body {results: []}, and [getFavouriteRecipesByIDs] is not
    called: the log of upstream calls is as it was. *)
Theorem get_empty_store (request : VercelRequest) (response : VercelResponse)
    (w : World DB) :
  method request = "GET" ->
  prisma_findMany (db w) = Normal [] ->
  exists r w',
    handler getFavouriteRecipesByIDs request response w = (Normal r, w') /\
    statusCode r = 200 /\
    sent r = Json (VObj [("results", VArr [])]) /\
    upstreamCalls w' = upstreamCalls w.
Proof.
  intros Hm Hrows. by_method Hm.
  unfold findMany. rewrite Hrows. cbn.
  do 2 eexists; split; [reflexivity|]. repeat split.
Qed.

(** C10.  The presence check on POST and DELETE is falsiness: a body
    whose recipeId is 0, the empty string, null or false is answered 400
    with "Recipe ID is required", and the world is left as it was, so no
    query is issued and the table is unchanged. *)
Theorem falsy_recipeId_rejected (request : VercelRequest)
    (response : VercelResponse) (w : World DB) (props : list (string * jsval)) :
  method request = "POST" \/ method request = "DELETE" ->
  body request = VObj props ->
  listedFalsy (assoc "recipeId" props) ->
  exists r,
    handler getFavouriteRecipesByIDs request response w = (Normal r, w) /\
    statusCode r = 400 /\
    sent r = Json (VObj [("error", VStr "Recipe ID is required")]).
Proof.
  intros Hm Hbody Hv.
  assert (Ht : truthy (assoc "recipeId" props) = false).
  { destruct Hv as [-> | [-> | [-> | ->]]]; reflexivity. }
  destruct Hm as [Hm | Hm]; by_method Hm;
    unfold destructure; rewrite Hbody; cbn [isNullish getProp];
    rewrite Ht; cbn [negb];
    eexists; (split; [reflexivity|]); split; reflexivity.
Qed.

(** C7.  GET is read-only on the favourites table: whatever
    [findMany] and the upstream call do, the database after the handler
    is the database before, so the persisted IDs are the same, and the
    only query issued is the one [findMany]. *)
Theorem get_is_read_only (request : VercelRequest) (response : VercelResponse)
    (w : World DB) :
  method request = "GET" ->
  let w' := snd (handler getFavouriteRecipesByIDs request response w) in
  db w' = db w /\
  persisted (db w') = persisted (db w) /\
  queries w' = (queries w ++ [QFindMany])%list.
Proof.
  intros Hm w'. subst w'. by_method Hm.
  unfold findMany.
  destruct (prisma_findMany (db w)) as [rows | e]; cbn [snd];
    [|catch_cases; cbn; auto].
  destruct (Z.of_nat (length (map _ rows)) =? 0); cbn; auto.
  unfold callGetFavouriteRecipesByIDs.
  destruct (getFavouriteRecipesByIDs _) as [favourites | apiError]; cbn; auto.
  destruct (isApiLimitError apiError) as [[|] | e]; cbn; auto.
  - catch_cases; cbn; auto.
  - catch_cases; cbn; auto.
Qed.

Lemma reportsQuota_classified (e : jsval) :
  reportsQuota e -> isApiLimitError e = Normal true.
Proof.
  unfold isApiLimitError. intros [Hcode | (m & Hm & Hmarker)].
  - rewrite Hcode. reflexivity.
  - destruct (strictEqNum _ 402); [reflexivity|].
    rewrite Hm. cbn [optIncludes truthy].
    destruct (includes m "points limit"); [reflexivity|].
    destruct Hmarker as [Hp | Hd]; [discriminate|]. rewrite Hd. reflexivity.
Qed.

Lemma degraded_placeholders (rows : list FavouriteRecord) :
  map degradedRecord (storedIds rows) =
  map (fun row => placeholderFor (recipeId row)) rows.
Proof.
  unfold storedIds. rewrite map_map. apply map_ext. intros row.
  unfold degradedRecord, placeholderFor. rewrite parseInt_toString. reflexivity.
Qed.

Lemma storedIds_nonempty (rows : list FavouriteRecord) :
  rows <> [] -> (Z.of_nat (length (storedIds rows)) =? 0) = false.
Proof.
  destruct rows; [congruence|]. intros _. reflexivity.
Qed.

(** The degraded branch of GET, as the handler computes it. *)
Lemma get_degraded (request : VercelRequest) (response : VercelResponse)
    (w : World DB) (rows : list FavouriteRecord) (e : jsval) :
  method request = "GET" ->
  prisma_findMany (db w) = Normal rows ->
  rows <> [] ->
  getFavouriteRecipesByIDs (storedIds rows) = Thrown e ->
  isApiLimitError e = Normal true ->
  handler getFavouriteRecipesByIDs request response w =
    (Normal (json (degradedBody (storedIds rows)) (status 200 (setCorsHeaders response))),
     {| db := db w;
        queries := (queries w ++ [QFindMany])%list;
        upstreamCalls := (upstreamCalls w ++ [storedIds rows])%list |}).
Proof.
  intros Hm Hrows Hne Hapi Hlimit. by_method Hm.
  unfold findMany. rewrite Hrows.
  fold (storedIds rows). rewrite (storedIds_nonempty rows Hne).
  unfold callGetFavouriteRecipesByIDs; cbn [db queries upstreamCalls].
  rewrite Hapi, Hlimit. reflexivity.
Qed.

(** C1.  When the upstream API reports quota exhaustion while a
    non-empty list of stored IDs is resolved, GET is answered 200; the
    results hold one degraded record per stored row, in the order of the
    rows, each with the row's ID and [_apiUnavailable] set to true, and
    the body carries the notice that the favourites are saved and will
    appear once the limit resets. *)
Theorem get_quota_degrades (request : VercelRequest) (response : VercelResponse)
    (w : World DB) (rows : list FavouriteRecord) (e : jsval) :
  method request = "GET" ->
  prisma_findMany (db w) = Normal rows ->
  rows <> [] ->
  getFavouriteRecipesByIDs (storedIds rows) = Thrown e ->
  reportsQuota e ->
  exists r w',
    handler getFavouriteRecipesByIDs request response w = (Normal r, w') /\
    statusCode r = 200 /\
    sent r = Json (VObj [("results", VArr (map (fun row => placeholderFor (recipeId row)) rows));
                         ("_message",
                          VStr "Your favourites are saved, but recipe details are temporarily unavailable due to API daily limit. They will appear once the limit resets.")]).
Proof.
  intros Hm Hrows Hne Hapi Hquota.
  do 2 eexists. split.
  - apply (get_degraded request response w rows e); auto using reportsQuota_classified.
  - split; [reflexivity|]. cbn [sent json]. unfold degradedBody.
    rewrite degraded_placeholders. reflexivity.
Qed.

Lemma classification_throws (e te : jsval) :
  isApiLimitError e = Thrown te ->
  uniqueConstraintError e = false /\
  te = TypeError "apiError?.message?.includes is not a function".
Proof.
  unfold isApiLimitError.
  destruct (strictEqNum _ 402); [discriminate|].
  destruct e as [| | b | n | | s | elems | props | message props];
    cbn [optChain isNullish getProp String.eqb Ascii.eqb Bool.eqb optIncludes truthy];
    try discriminate.
  - destruct (assoc "message" props); cbn [optIncludes truthy];
      repeat (match goal with
              | |- context [if ?b then _ else _] => destruct b
              end; cbn [optIncludes truthy]);
      try discriminate; intros [= <-]; split; reflexivity.
  - destruct (includes message "points limit"); discriminate.
Qed.

(** An upstream error that the handler does not classify as quota
    exhaustion gets no degraded fallback and no 200.  When the [catch]
    block can print it, the answer is 500, or 409 for an Error whose
    message contains "Unique constraint". *)
Lemma get_other_error_answer (request : VercelRequest)
    (response : VercelResponse) (w : World DB) (rows : list FavouriteRecord)
    (e : jsval) :
  method request = "GET" ->
  prisma_findMany (db w) = Normal rows ->
  rows <> [] ->
  getFavouriteRecipesByIDs (storedIds rows) = Thrown e ->
  isApiLimitError e <> Normal true ->
  printable e = true ->
  exists r w',
    handler getFavouriteRecipesByIDs request response w = (Normal r, w') /\
    statusCode r = (if uniqueConstraintError e then 409 else 500) /\
    statusCode r <> 200 /\
    (forall ids, sent r <> Json (degradedBody ids)).
Proof.
  intros Hm Hrows Hne Hapi Hnot Hprint. by_method Hm.
  unfold findMany. rewrite Hrows.
  fold (storedIds rows). rewrite (storedIds_nonempty rows Hne).
  unfold callGetFavouriteRecipesByIDs; cbn [db queries upstreamCalls].
  rewrite Hapi.
  destruct (isApiLimitError e) as [[|] | te] eqn:Hclass; [congruence| |].
  - rewrite (printError_printable e Hprint). fold (uniqueConstraintError e).
    destruct (uniqueConstraintError e) eqn:Hu; do 2 eexists;
      (split; [reflexivity|]); cbn [statusCode status json sent];
      repeat split; try lia; discriminate.
  - destruct (classification_throws e te Hclass) as [Hu ->]. rewrite Hu.
    do 2 eexists; (split; [reflexivity|]); cbn [statusCode status json sent];
      repeat split; try lia; discriminate.
Qed.

(** C5, amended.  On POST with a body that can be destructured: a truthy
    recipeId that the store accepts is answered 201 with the created
    record; a missing or falsy recipeId is answered 400; and when the
    store throws an Error whose message contains "Unique constraint" the
    answer is 409 with "Recipe is already in favorites". *)
Theorem post_answers (request : VercelRequest) (response : VercelResponse)
    (w : World DB) :
  method request = "POST" ->
  isNullish (body request) = false ->
  let recipeId := getProp (body request) "recipeId" in
  let answer := fst (handler getFavouriteRecipesByIDs request response w) in
  (truthy recipeId = true ->
   forall created d,
     prisma_create recipeId (db w) = (Normal created, d) ->
     exists r, answer = Normal r /\ statusCode r = 201 /\ sent r = Json created) /\
  (truthy recipeId = false ->
   exists r, answer = Normal r /\ statusCode r = 400 /\
             sent r = Json (VObj [("error", VStr "Recipe ID is required")])) /\
  (truthy recipeId = true ->
   forall e d,
     prisma_create recipeId (db w) = (Thrown e, d) ->
     uniqueConstraintError e = true ->
     exists r, answer = Normal r /\ statusCode r = 409 /\
               sent r = Json (VObj [("error", VStr "Recipe is already in favorites")])).
Proof.
  intros Hm Hbody recipeId answer. subst recipeId answer. by_method Hm.
  unfold destructure, create. rewrite Hbody. cbv beta iota.
  repeat split.
  - intros Ht created d Hc. rewrite Ht. cbn [negb]. cbv beta iota.
    rewrite Hc. cbn. eexists; repeat split.
  - intros Ht. rewrite Ht. cbn. eexists; repeat split.
  - intros Ht e d Hc Hu. rewrite Ht. cbn [negb]. cbv beta iota.
    rewrite Hc. cbv beta iota.
    assert (He : instanceofError e = true).
    { unfold uniqueConstraintError in Hu. apply andb_prop in Hu. tauto. }
    rewrite (printError_error e He).
    fold (uniqueConstraintError e). rewrite Hu. cbn.
    eexists; repeat split.
Qed.

(** C6, amended.  On DELETE with a body that can be destructured: a
    truthy recipeId whose deletion the store completes is answered 204
    with an empty body; a missing or falsy recipeId is answered 400. *)
Theorem delete_answers (request : VercelRequest) (response : VercelResponse)
    (w : World DB) :
  method request = "DELETE" ->
  isNullish (body request) = false ->
  let recipeId := getProp (body request) "recipeId" in
  let answer := fst (handler getFavouriteRecipesByIDs request response w) in
  (truthy recipeId = true ->
   forall d,
     prisma_delete recipeId (db w) = (Normal tt, d) ->
     exists r, answer = Normal r /\ statusCode r = 204 /\ sent r = Ended) /\
  (truthy recipeId = false ->
   exists r, answer = Normal r /\ statusCode r = 400 /\
             sent r = Json (VObj [("error", VStr "Recipe ID is required")])).
Proof.
  intros Hm Hbody recipeId answer. subst recipeId answer. by_method Hm.
  unfold destructure, delete_. rewrite Hbody. cbv beta iota.
  split.
  - intros Ht d Hd. rewrite Ht. cbn [negb]. cbv beta iota.
    rewrite Hd. cbn. eexists; repeat split.
  - intros Ht. rewrite Ht. cbn. eexists; repeat split.
Qed.

End Answers.

(** ** Resolving through the modelled upstream resolver *)

Lemma find_hasId (n : Z) (recipes : list jsval) (y : jsval) :
  find (RecipeApi.hasId (toString n)) recipes = Some y ->
  getProp y "id" = VNum n.
Proof.
  intros Hfind. apply find_some in Hfind as [_ Hy].
  unfold RecipeApi.hasId in Hy. rewrite parseInt_toString in Hy.
  destruct (getProp y "id"); try discriminate.
  apply Z.eqb_eq in Hy. congruence.
Qed.

Lemma rekey_ids (placeholderTitle : string -> string)
    (rows : list FavouriteRecord) (recipes : list jsval) :
  idsOf (RecipeApi.rekey placeholderTitle (storedIds rows) recipes) =
  map (fun row => VNum (recipeId row)) rows.
Proof.
  unfold RecipeApi.rekey, idsOf, storedIds. rewrite !map_map.
  apply map_ext. intros row.
  destruct (find (RecipeApi.hasId (toString (recipeId row))) recipes) as [y|] eqn:Hfind.
  - exact (find_hasId _ _ _ Hfind).
  - unfold RecipeApi.DegradedRecord. cbn [getProp assoc String.eqb Ascii.eqb Bool.eqb].
    apply parseInt_toString.
Qed.

Lemma placeholder_ids (rows : list FavouriteRecord) :
  idsOf (map (fun row => placeholderFor (recipeId row)) rows) =
  map (fun row => VNum (recipeId row)) rows.
Proof.
  unfold idsOf. rewrite map_map. reflexivity.
Qed.

Section Resolve.

Context {DB : Type} {prisma : PrismaFavouriteRecipes DB}.
Variable placeholderTitle : string -> string.
Variable bulk : list string -> completion (list jsval).

(** C2.  For a non-empty list of stored rows, GET answers 200 with as
    many results as there are rows, and the IDs of the results are the
    IDs of the rows in the same order: on the success path, whatever
    the bulk endpoint returned, and on the degraded path, when the
    upstream error is classified as quota exhaustion. *)
Theorem resolve_length_and_order (request : VercelRequest)
    (response : VercelResponse) (w : World DB) (rows : list FavouriteRecord) :
  method request = "GET" ->
  prisma_findMany (db w) = Normal rows ->
  rows <> [] ->
  let answer :=
    fst (handler (RecipeApi.getFavouriteRecipesByIDs placeholderTitle bulk)
           request response w) in
  (forall recipes,
     bulk (storedIds rows) = Normal recipes ->
     exists r results,
       answer = Normal r /\ statusCode r = 200 /\
       sent r = Json (VObj [("results", VArr results)]) /\
       length results = length rows /\
       idsOf results = map (fun row => VNum (recipeId row)) rows) /\
  (forall e,
     bulk (storedIds rows) = Thrown e ->
     isApiLimitError e = Normal true ->
     exists r results,
       answer = Normal r /\ statusCode r = 200 /\
       sent r = Json (VObj [("results", VArr results);
                            ("_message",
                             VStr "Your favourites are saved, but recipe details are temporarily unavailable due to API daily limit. They will appear once the limit resets.")]) /\
       length results = length rows /\
       idsOf results = map (fun row => VNum (recipeId row)) rows).
Proof.
  intros Hm Hrows Hne answer. subst answer. split.
  - intros recipes Hbulk.
    by_method Hm. unfold findMany. rewrite Hrows.
    fold (storedIds rows). rewrite (storedIds_nonempty rows Hne).
    unfold callGetFavouriteRecipesByIDs, RecipeApi.getFavouriteRecipesByIDs.
    rewrite Hbulk. cbn [fst].
    pose proof (rekey_ids placeholderTitle rows recipes) as Hids.
    exists (json (VObj [("results",
                         VArr (RecipeApi.rekey placeholderTitle (storedIds rows) recipes))])
                 (status 200 (setCorsHeaders response))),
           (RecipeApi.rekey placeholderTitle (storedIds rows) recipes).
    repeat split; [|exact Hids].
    apply (f_equal (@length jsval)) in Hids. unfold idsOf in Hids.
    rewrite !length_map in Hids. exact Hids.
  - intros e Hbulk Hlimit.
    rewrite (get_degraded _ request response w rows e Hm Hrows Hne); auto.
    + cbn [fst]. do 2 eexists. split; [reflexivity|]. split; [reflexivity|].
      cbn [sent json]. unfold degradedBody. rewrite degraded_placeholders.
      split; [reflexivity|]. rewrite length_map. split; [reflexivity|].
      apply placeholder_ids.
    + unfold RecipeApi.getFavouriteRecipesByIDs. rewrite Hbulk. reflexivity.
Qed.

End Resolve.

(** ** The key rotator *)

Module KeyRotatorFacts.
Import KeyRotator.

Lemma markExhausted_In (c : string) (r : Rotator) (y : Credential) :
  In y (markExhausted c r) ->
  exists x, In x r /\ ident y = ident x /\
            ((ident x = c /\ quota y = exhausted) \/ (ident x <> c /\ y = x)).
Proof.
  unfold markExhausted. rewrite in_map_iff. intros (x & Hy & Hx).
  exists x. split; [exact Hx|].
  destruct (String.eqb_spec (ident x) c) as [Heq | Hneq]; subst y; cbn; auto.
Qed.

Lemma markExhausted_marks (c : string) (r : Rotator) :
  exhaustedFor c (markExhausted c r).
Proof.
  intros y Hy Hc.
  apply markExhausted_In in Hy as (x & _ & Hid & [[_ Hq] | [Hne ->]]); congruence.
Qed.

Lemma markExhausted_keeps (c c' : string) (r : Rotator) :
  exhaustedFor c r -> exhaustedFor c (markExhausted c' r).
Proof.
  intros Hr y Hy Hc.
  apply markExhausted_In in Hy as (x & Hx & Hid & [[_ Hq] | [Hne ->]]); auto.
Qed.

Lemma select_skips (c : string) (r : Rotator) :
  exhaustedFor c r -> selectCredential r <> inl c.
Proof.
  unfold selectCredential. intros Hr.
  destruct (find usable r) as [x|] eqn:Hfind; [|discriminate].
  apply find_some in Hfind as [Hx Hu].
  intros [= Hc]. unfold usable in Hu. rewrite (Hr x Hx Hc) in Hu. discriminate.
Qed.

Lemma run_skips (c : string) (calls : list Call) (r : Rotator) :
  exhaustedFor c r ->
  forall out, In out (fst (run calls r)) -> out <> inl c.
Proof.
  revert r. induction calls as [|[|c'] rest IH]; intros r Hr out Hout; cbn in Hout.
  - contradiction.
  - destruct (run rest r) as [outs r'] eqn:E. cbn in Hout.
    destruct Hout as [<- | Hout]; [apply select_skips; exact Hr|].
    apply (IH r Hr). rewrite E. exact Hout.
  - apply (IH (markExhausted c' r)); [apply markExhausted_keeps; exact Hr|exact Hout].
Qed.

Lemma run_state (calls : list Call) (r : Rotator) (y : Credential) :
  In y (snd (run calls r)) ->
  exists x, In x r /\ ident x = ident y /\
            (quota y = exhausted \/ (y = x /\ ~ In (ident x) (marked calls))).
Proof.
  revert r y. induction calls as [|[|c] rest IH]; intros r y Hy; cbn in Hy.
  - exists y. repeat split; auto.
  - destruct (run rest r) as [outs r'] eqn:E. cbn in Hy.
    apply (IH r). rewrite E. exact Hy.
  - apply IH in Hy as (x1 & Hx1 & Hid1 & Hq).
    apply markExhausted_In in Hx1 as (x & Hx & Hid & Hcase).
    exists x. split; [exact Hx|]. split; [congruence|].
    destruct Hq as [Hq | [-> Hnot]]; [left; exact Hq|].
    destruct Hcase as [[_ Hq] | [Hne ->]]; [left; exact Hq|].
    right. split; [reflexivity|]. cbn. intros [Heq | Hin]; [congruence|contradiction].
Qed.

Lemma allExhausted_run (calls : list Call) (r : Rotator) :
  allExhausted r ->
  forall out, In out (fst (run calls r)) -> out = inr NoCredentialsAvailable.
Proof.
  revert r. induction calls as [|[|c] rest IH]; intros r Hr out Hout; cbn in Hout.
  - contradiction.
  - destruct (run rest r) as [outs r'] eqn:E. cbn in Hout.
    destruct Hout as [<- | Hout].
    + unfold selectCredential.
      destruct (find usable r) as [x|] eqn:Hfind; [|reflexivity].
      apply find_some in Hfind as [Hx Hu]. unfold usable in Hu.
      rewrite (Hr x Hx) in Hu. discriminate.
    + apply (IH r Hr). rewrite E. exact Hout.
  - apply (IH (markExhausted c r)); [|exact Hout].
    intros y Hy.
    apply markExhausted_In in Hy as (x & Hx & _ & [[_ Hq] | [_ ->]]); auto.
Qed.

End KeyRotatorFacts.

(** C8.  Once [markExhausted c] has been called, no later
    [selectCredential] returns [c], whatever calls follow; and once
    every credential of the rotator has been marked exhausted, every
    later [selectCredential] fails with [NoCredentialsAvailable]. *)
Theorem rotator_never_reselects (r : KeyRotator.Rotator) (c : string)
    (calls later : list KeyRotator.Call) :
  (forall out,
     In out (fst (KeyRotator.run later (KeyRotator.markExhausted c r))) ->
     out <> inl c) /\
  ((forall x, In x r -> In (KeyRotator.ident x) (KeyRotator.marked calls)) ->
   forall out,
     In out (fst (KeyRotator.run later (snd (KeyRotator.run calls r)))) ->
     out = inr KeyRotator.NoCredentialsAvailable).
Proof.
  split.
  - apply KeyRotatorFacts.run_skips, KeyRotatorFacts.markExhausted_marks.
  - intros Hall. apply KeyRotatorFacts.allExhausted_run.
    intros y Hy.
    apply KeyRotatorFacts.run_state in Hy as (x & Hx & Hid & [Hq | [-> Hnot]]);
      [exact Hq|]. exfalso. apply Hnot, Hall, Hx.
Qed.

(** * The statements at concrete inputs *)

Lemma method_not_allowed_witness :
  exists r,
    handler (upstreamThrows timeoutError)
      {| method := "PUT"; body := VUndefined |} freshResponse
      (startWorld ([101] : MemStore.DB)) = (Normal r, startWorld [101]) /\
    statusCode r = 405 /\
    sent r = Json (VObj [("error", VStr "Method not allowed")]) /\
    hasCorsHeaders r.
Proof.
  apply method_not_allowed; cbn [method]; discriminate.
Defined.

Lemma get_empty_store_witness :
  exists r w',
    handler (upstreamThrows timeoutError) (GET VUndefined) freshResponse
      (startWorld ([] : MemStore.DB)) = (Normal r, w') /\
    statusCode r = 200 /\
    sent r = Json (VObj [("results", VArr [])]) /\
    upstreamCalls w' = [].
Proof.
  apply (get_empty_store (upstreamThrows timeoutError) (GET VUndefined)
           freshResponse (startWorld ([] : MemStore.DB))); reflexivity.
Defined.

Lemma falsy_recipeId_rejected_witness :
  exists r,
    handler (upstreamThrows timeoutError) (POST (bodyWith (VNum 0))) freshResponse
      (startWorld ([] : MemStore.DB)) = (Normal r, startWorld []) /\
    statusCode r = 400 /\
    sent r = Json (VObj [("error", VStr "Recipe ID is required")]).
Proof.
  apply (falsy_recipeId_rejected (upstreamThrows timeoutError)
           (POST (bodyWith (VNum 0))) freshResponse (startWorld ([] : MemStore.DB))
           [("recipeId", VNum 0)]).
  - left. reflexivity.
  - reflexivity.
  - left. reflexivity.
Defined.

Lemma get_is_read_only_witness :
  let w' := snd (handler (upstreamThrows quotaError) (GET VUndefined) freshResponse
                   (startWorld ([101; 102] : MemStore.DB))) in
  db w' = [101; 102] /\
  persisted (db w') = [101; 102] /\
  queries w' = [QFindMany].
Proof.
  exact (get_is_read_only (upstreamThrows quotaError) (GET VUndefined)
           freshResponse (startWorld ([101; 102] : MemStore.DB)) eq_refl).
Defined.

Lemma get_quota_degrades_witness :
  exists r w',
    handler (upstreamThrows quotaError) (GET VUndefined) freshResponse
      (startWorld ([101; 102] : MemStore.DB)) = (Normal r, w') /\
    statusCode r = 200 /\
    sent r = Json (VObj [("results", VArr [placeholderFor 101; placeholderFor 102]);
                         ("_message",
                          VStr "Your favourites are saved, but recipe details are temporarily unavailable due to API daily limit. They will appear once the limit resets.")]).
Proof.
  apply (get_quota_degrades (upstreamThrows quotaError) (GET VUndefined)
           freshResponse (startWorld ([101; 102] : MemStore.DB))
           [{| recipeId := 101 |}; {| recipeId := 102 |}] quotaError).
  - reflexivity.
  - reflexivity.
  - discriminate.
  - reflexivity.
  - left. reflexivity.
Defined.

(** C4.  Two upstream errors that are not quota errors and are not
    answered 5xx.  An Error whose message contains "Unique constraint"
    meets the [catch] block's branch for Prisma's duplicate-favourite
    error when it is re-thrown, and GET is answered 409 "Recipe is
    already in favorites".  A thrown object that [String] cannot convert
    makes the [catch] block throw at its log line: the handler rejects
    and sends nothing. *)
Theorem get_other_error_not_5xx :
  (isApiLimitError uniqueUpstreamError = Normal false /\
   exists r,
     fst (handler (upstreamThrows uniqueUpstreamError) (GET VUndefined) freshResponse
            (startWorld ([101] : MemStore.DB))) = Normal r /\
     statusCode r = 409 /\
     sent r = Json (VObj [("error", VStr "Recipe is already in favorites")]) /\
     ~ (500 <= statusCode r <= 599)) /\
  (isApiLimitError unprintableObject = Normal false /\
   fst (handler (upstreamThrows unprintableObject) (GET VUndefined) freshResponse
          (startWorld ([101] : MemStore.DB))) =
   Thrown (TypeError "Cannot convert object to primitive value")).
Proof.
  split.
  - split; [reflexivity|].
    exists (json (errorBody "Recipe is already in favorites")
                 (status 409 (setCorsHeaders freshResponse))).
    split; [reflexivity|]. split; [reflexivity|]. split; [reflexivity|]. cbn. lia.
  - split; reflexivity.
Qed.

Lemma post_answers_witness :
  (exists r,
     fst (handler (upstreamThrows timeoutError) (POST (bodyWith (VNum 7))) freshResponse
            (startWorld ([] : MemStore.DB))) = Normal r /\
     statusCode r = 201 /\ sent r = Json (VObj [("recipeId", VNum 7)])) /\
  (exists r,
     fst (handler (upstreamThrows timeoutError) (POST (VObj [])) freshResponse
            (startWorld ([] : MemStore.DB))) = Normal r /\
     statusCode r = 400 /\
     sent r = Json (VObj [("error", VStr "Recipe ID is required")])) /\
  (exists r,
     fst (handler (upstreamThrows timeoutError) (POST (bodyWith (VNum 7))) freshResponse
            (startWorld ([7] : MemStore.DB))) = Normal r /\
     statusCode r = 409 /\
     sent r = Json (VObj [("error", VStr "Recipe is already in favorites")])).
Proof.
  split; [|split].
  - apply (proj1 (post_answers (upstreamThrows timeoutError) (POST (bodyWith (VNum 7)))
                    freshResponse (startWorld ([] : MemStore.DB)) eq_refl eq_refl)
             eq_refl _ ([7] : MemStore.DB)).
    reflexivity.
  - apply (proj1 (proj2 (post_answers (upstreamThrows timeoutError) (POST (VObj []))
                    freshResponse (startWorld ([] : MemStore.DB)) eq_refl eq_refl))).
    reflexivity.
  - apply (proj2 (proj2 (post_answers (upstreamThrows timeoutError)
                    (POST (bodyWith (VNum 7))) freshResponse
                    (startWorld ([7] : MemStore.DB)) eq_refl eq_refl))
             eq_refl
             (VError "Unique constraint failed on the fields: (recipeId)"
                     [("code", VStr "P2002")])
             ([7] : MemStore.DB)).
    + reflexivity.
    + reflexivity.
Defined.

(** C5 as stated fails: the body carries recipeId 0, recipe 0 is not in
    the table, and the answer is 400, not 201.  (And a POST that has no
    body at all, so that recipeId is missing, is answered 500, not 400:
    destructuring [undefined] throws.) *)
Lemma post_answers_counterexample :
  (getProp (body (POST (bodyWith (VNum 0)))) "recipeId" = VNum 0 /\
   ~ In 0 (persisted ([] : MemStore.DB)) /\
   exists r,
     fst (handler (upstreamThrows timeoutError) (POST (bodyWith (VNum 0))) freshResponse
            (startWorld ([] : MemStore.DB))) = Normal r /\
     statusCode r = 400 /\ statusCode r <> 201) /\
  (exists r,
     fst (handler (upstreamThrows timeoutError) (POST VUndefined) freshResponse
            (startWorld ([] : MemStore.DB))) = Normal r /\
     statusCode r = 500 /\ statusCode r <> 400).
Proof.
  split.
  - split; [reflexivity|]. split; [intros []|].
    exists (json (errorBody "Recipe ID is required")
                 (status 400 (setCorsHeaders freshResponse))).
    split; [reflexivity|]. split; [reflexivity|]. cbn. lia.
  - eexists. split; [reflexivity|]. split; [reflexivity|]. cbn. lia.
Qed.

Lemma delete_answers_witness :
  (exists r,
     fst (handler (upstreamThrows timeoutError) (DELETE (bodyWith (VNum 7))) freshResponse
            (startWorld ([7] : MemStore.DB))) = Normal r /\
     statusCode r = 204 /\ sent r = Ended) /\
  (exists r,
     fst (handler (upstreamThrows timeoutError) (DELETE (VObj [])) freshResponse
            (startWorld ([7] : MemStore.DB))) = Normal r /\
     statusCode r = 400 /\
     sent r = Json (VObj [("error", VStr "Recipe ID is required")])).
Proof.
  split.
  - apply (proj1 (delete_answers (upstreamThrows timeoutError)
                    (DELETE (bodyWith (VNum 7))) freshResponse
                    (startWorld ([7] : MemStore.DB)) eq_refl eq_refl)
             eq_refl ([] : MemStore.DB)).
    reflexivity.
  - apply (proj2 (delete_answers (upstreamThrows timeoutError) (DELETE (VObj []))
                    freshResponse (startWorld ([7] : MemStore.DB)) eq_refl eq_refl)).
    reflexivity.
Defined.

(** C6 as stated fails: a DELETE whose body carries recipeId 0 is
    answered 400, and a DELETE with recipeId 5 against a database that
    cannot be reached is answered 500; neither is a 204.  (And a DELETE
    that has no body at all is answered 500, not 400.) *)
Lemma delete_answers_counterexample :
  (getProp (body (DELETE (bodyWith (VNum 0)))) "recipeId" = VNum 0 /\
   exists r,
     fst (handler (upstreamThrows timeoutError) (DELETE (bodyWith (VNum 0))) freshResponse
            (startWorld ([] : MemStore.DB))) = Normal r /\
     statusCode r = 400 /\ statusCode r <> 204) /\
  (exists r,
     fst (handler (upstreamThrows timeoutError) (DELETE (bodyWith (VNum 5))) freshResponse
            (startWorld tt)) = Normal r /\
     statusCode r = 500 /\ statusCode r <> 204) /\
  (exists r,
     fst (handler (upstreamThrows timeoutError) (DELETE VUndefined) freshResponse
            (startWorld ([] : MemStore.DB))) = Normal r /\
     statusCode r = 500 /\ statusCode r <> 400).
Proof.
  split; [|split].
  - split; [reflexivity|].
    exists (json (errorBody "Recipe ID is required")
                 (status 400 (setCorsHeaders freshResponse))).
    split; [reflexivity|]. split; [reflexivity|]. cbn. lia.
  - eexists. split; [reflexivity|]. split; [reflexivity|]. cbn. lia.
  - eexists. split; [reflexivity|]. split; [reflexivity|]. cbn. lia.
Qed.

Lemma resolve_length_and_order_witness :
  (exists r results,
     fst (handler (RecipeApi.getFavouriteRecipesByIDs (fun _ => "Recipe")
                     (fun _ => Normal [recipe 102 "Soup"; recipe 101 "Stew"]))
            (GET VUndefined) freshResponse (startWorld ([101; 102] : MemStore.DB)))
       = Normal r /\
     statusCode r = 200 /\
     sent r = Json (VObj [("results", VArr results)]) /\
     length results = 2%nat /\
     idsOf results = [VNum 101; VNum 102]) /\
  (exists r results,
     fst (handler (RecipeApi.getFavouriteRecipesByIDs (fun _ => "Recipe")
                     (fun _ => Normal [recipe 102 "Soup"]))
            (GET VUndefined) freshResponse (startWorld ([101; 102] : MemStore.DB)))
       = Normal r /\
     statusCode r = 200 /\
     sent r = Json (VObj [("results", VArr results)]) /\
     length results = 2%nat /\
     idsOf results = [VNum 101; VNum 102]) /\
  (exists r results,
     fst (handler (RecipeApi.getFavouriteRecipesByIDs (fun _ => "Recipe")
                     (fun _ => Thrown quotaError))
            (GET VUndefined) freshResponse (startWorld ([101; 102] : MemStore.DB)))
       = Normal r /\
     statusCode r = 200 /\
     sent r = Json (VObj [("results", VArr results);
                          ("_message",
                           VStr "Your favourites are saved, but recipe details are temporarily unavailable due to API daily limit. They will appear once the limit resets.")]) /\
     length results = 2%nat /\
     idsOf results = [VNum 101; VNum 102]).
Proof.
  split; [|split].
  - exact (proj1 (resolve_length_and_order (prisma := MemStore.store)
                    (fun _ => "Recipe")
                    (fun _ => Normal [recipe 102 "Soup"; recipe 101 "Stew"])
                    (GET VUndefined) freshResponse
                    (startWorld ([101; 102] : MemStore.DB))
                    [{| recipeId := 101 |}; {| recipeId := 102 |}]
                    eq_refl eq_refl ltac:(discriminate))
             [recipe 102 "Soup"; recipe 101 "Stew"] eq_refl).
  - exact (proj1 (resolve_length_and_order (prisma := MemStore.store)
                    (fun _ => "Recipe")
                    (fun _ => Normal [recipe 102 "Soup"])
                    (GET VUndefined) freshResponse
                    (startWorld ([101; 102] : MemStore.DB))
                    [{| recipeId := 101 |}; {| recipeId := 102 |}]
                    eq_refl eq_refl ltac:(discriminate))
             [recipe 102 "Soup"] eq_refl).
  - exact (proj2 (resolve_length_and_order (prisma := MemStore.store)
                    (fun _ => "Recipe")
                    (fun _ => Thrown quotaError)
                    (GET VUndefined) freshResponse
                    (startWorld ([101; 102] : MemStore.DB))
                    [{| recipeId := 101 |}; {| recipeId := 102 |}]
                    eq_refl eq_refl ltac:(discriminate))
             quotaError eq_refl eq_refl).
Defined.

Lemma rotator_never_reselects_witness :
  (forall out,
     In out (fst (KeyRotator.run [KeyRotator.CallSelect; KeyRotator.CallSelect]
                    (KeyRotator.markExhausted "key-1" sampleRotator))) ->
     out <> inl "key-1") /\
  (forall out,
     In out (fst (KeyRotator.run [KeyRotator.CallSelect]
                    (snd (KeyRotator.run
                            [KeyRotator.CallMarkExhausted "key-2";
                             KeyRotator.CallSelect;
                             KeyRotator.CallMarkExhausted "key-1"]
                            sampleRotator)))) ->
     out = inr KeyRotator.NoCredentialsAvailable).
Proof.
  split.
  - apply (proj1 (rotator_never_reselects sampleRotator "key-1" []
                    [KeyRotator.CallSelect; KeyRotator.CallSelect])).
  - apply (proj2 (rotator_never_reselects sampleRotator "key-1"
                    [KeyRotator.CallMarkExhausted "key-2";
                     KeyRotator.CallSelect;
                     KeyRotator.CallMarkExhausted "key-1"]
                    [KeyRotator.CallSelect])).
    intros x [<- | [<- | []]]; cbn; auto.
Defined.

(** * Further properties of the handler *)

(** [String.prefix] and [includes] are the prefix and substring
    relations. *)
Lemma prefix_iff (sub s : string) :
  String.prefix sub s = true <-> exists post, s = sub ++ post.
Proof.
  revert s. induction sub as [|c sub IH]; intros s.
  - split; [intros _; exists s; reflexivity|]. intros _. destruct s; reflexivity.
  - destruct s as [|c' s]; cbn [String.prefix String.append].
    + split; [discriminate|intros [post [=]]].
    + destruct (ascii_dec c c') as [<- | Hne].
      * rewrite IH. split; intros [post Hp]; exists post.
        -- rewrite Hp. reflexivity.
        -- cbn in Hp. injection Hp as Hp. exact Hp.
      * split; [discriminate|]. intros [post [= Hc _]]. congruence.
Qed.

Lemma includes_iff (s sub : string) :
  includes s sub = true <-> exists pre post, s = pre ++ sub ++ post.
Proof.
  split.
  - induction s as [|c s IH]; cbn [includes].
    + destruct (String.prefix sub "") eqn:Hp; [|discriminate].
      intros _. apply prefix_iff in Hp as [post Hp]. exists "", post. exact Hp.
    + destruct (String.prefix sub (String c s)) eqn:Hp.
      * intros _. apply prefix_iff in Hp as [post Hp]. exists "", post. exact Hp.
      * intros Hs. apply IH in Hs as (pre & post & ->).
        exists (String c pre), post. reflexivity.
  - intros (pre & post & ->). induction pre as [|c pre IH].
    + change ("" ++ sub ++ post) with (sub ++ post).
      assert (Hp : String.prefix sub (sub ++ post) = true)
        by (apply prefix_iff; eexists; reflexivity).
      revert Hp. generalize (sub ++ post). intros t Hp.
      destruct t; cbn [includes]; rewrite Hp; reflexivity.
    + change (String c pre ++ sub ++ post) with (String c (pre ++ sub ++ post)).
      cbn [includes].
      destruct (String.prefix sub _); [reflexivity|exact IH].
Qed.

Section HandlerFacts.

Context {DB : Type} {prisma : PrismaFavouriteRecipes DB}.
Variable getFavouriteRecipesByIDs : list string -> completion jsval.

(** Every answer is built on the response with the CORS headers set:
    a JSON body under one of six status codes, or an empty body under
    200 or 204.  The handler rejects only from its [catch] block, with
    the TypeError of [String(error)], and then what was thrown into the
    block cannot be printed. *)
Lemma handler_answer_shape (request : VercelRequest) (response : VercelResponse)
    (w : World DB) :
  match fst (handler getFavouriteRecipesByIDs request response w) with
  | Normal r =>
      (exists v code, r = json v (status code (setCorsHeaders response)) /\
                      In code [200; 201; 400; 405; 409; 500]) \/
      (exists code, r = end_ (status code (setCorsHeaders response)) /\
                    In code [200; 204])
  | Thrown te =>
      te = TypeError "Cannot convert object to primitive value" /\
      ((exists e, prisma_findMany (db w) = Thrown e /\ printable e = false) \/
       (exists v e, fst (prisma_create v (db w)) = Thrown e /\ printable e = false) \/
       (exists v e, fst (prisma_delete v (db w)) = Thrown e /\ printable e = false) \/
       (exists ids e, getFavouriteRecipesByIDs ids = Thrown e /\ printable e = false))
  end.
Proof.
  unfold handler, tryCatch, bind, ret, throw, liftCompletion,
    create, findMany, delete_, callGetFavouriteRecipesByIDs, printError, destructure.
  repeat (cbn [fst];
          match goal with
          | |- context [match ?x with _ => _ end] =>
              lazymatch x with
              | context [match _ with _ => _ end] => fail
              | _ => destruct x eqn:?
              end
          end);
    cbn [fst];
    try (left; do 2 eexists; split; [reflexivity|]; cbn; tauto);
    try (right; eexists; split; [reflexivity|]; cbn; tauto);
    try discriminate;
    (split; [reflexivity|]).
  all: repeat match goal with
         | H : Thrown _ = Thrown _ |- _ => injection H as <-
         | H : Normal _ = Normal _ |- _ => injection H as <-
         | H : (_, _) = (_, _) |- _ => injection H as <- <-
         end.
  all: try match goal with
         | H : isApiLimitError ?e = Thrown ?te |- _ =>
             destruct (classification_throws e te H) as [_ ->]; discriminate
         end.
  all: unfold printable.
  all: try (left; eexists; split; [first [reflexivity | eassumption]|];
            match goal with
            | H1 : instanceofError _ = false, H2 : stringThrows _ = true |- _ =>
                rewrite H1, H2; reflexivity
            end).
  all: try (right; left; do 2 eexists; split;
            [match goal with H : prisma_create _ _ = _ |- _ => rewrite H; reflexivity end|];
            match goal with
            | H1 : instanceofError _ = false, H2 : stringThrows _ = true |- _ =>
                rewrite H1, H2; reflexivity
            end).
  all: try (right; right; left; do 2 eexists; split;
            [match goal with H : prisma_delete _ _ = _ |- _ => rewrite H; reflexivity end|];
            match goal with
            | H1 : instanceofError _ = false, H2 : stringThrows _ = true |- _ =>
                rewrite H1, H2; reflexivity
            end).
  all: try (right; right; right; do 2 eexists; split; [first [reflexivity | eassumption]|];
            match goal with
            | H1 : instanceofError _ = false, H2 : stringThrows _ = true |- _ =>
                rewrite H1, H2; reflexivity
            end).
Qed.

(** X1.  An OPTIONS request is the CORS preflight: whatever its body,
    it is answered 200 with an empty body and the CORS headers, and
    neither the store nor the upstream API is touched. *)
Theorem options_preflight (request : VercelRequest) (response : VercelResponse)
    (w : World DB) :
  method request = "OPTIONS" ->
  exists r,
    handler getFavouriteRecipesByIDs request response w = (Normal r, w) /\
    statusCode r = 200 /\ sent r = Ended /\ hasCorsHeaders r.
Proof.
  intros Hm. unfold handler. rewrite Hm. cbn [String.eqb Ascii.eqb Bool.eqb].
  eexists. split; [reflexivity|]. repeat split; apply setCorsHeaders_has.
Qed.

(** X2.  Every answer of the handler carries the three CORS headers,
    has one of the statuses 200, 201, 204, 400, 405, 409 and 500, and
    something was sent.  The handler rejects in one way only: with the
    TypeError that [String(error)] throws in the [catch] block, nothing
    being sent.  When whatever the store and the upstream API throw can
    be printed, it answers. *)
Theorem every_answer_has_cors (request : VercelRequest) (response : VercelResponse)
    (w : World DB) :
  let answer := fst (handler getFavouriteRecipesByIDs request response w) in
  match answer with
  | Normal r =>
      hasCorsHeaders r /\ In (statusCode r) handlerStatuses /\ sent r <> NotSent
  | Thrown te => te = TypeError "Cannot convert object to primitive value"
  end /\
  (throwsPrintable (prisma_findMany (db w)) ->
   (forall v, throwsPrintable (fst (prisma_create v (db w)))) ->
   (forall v, throwsPrintable (fst (prisma_delete v (db w)))) ->
   (forall ids, throwsPrintable (getFavouriteRecipesByIDs ids)) ->
   exists r, answer = Normal r).
Proof.
  intros answer. subst answer.
  pose proof (handler_answer_shape request response w) as Hshape.
  destruct (fst (handler getFavouriteRecipesByIDs request response w)) as [r | te].
  - split; [|eauto].
    destruct Hshape as [(v & code & -> & Hcode) | (code & -> & Hcode)];
      (split; [apply setCorsHeaders_has|]);
      (split; [|discriminate]);
      unfold handlerStatuses; cbn in *; intuition lia.
  - destruct Hshape as [-> Hwhy]. split; [reflexivity|].
    intros Hfind Hcreate Hdelete Hcall. exfalso.
    destruct Hwhy as [(e & He & Hp) | [(v & e & He & Hp) | [(v & e & He & Hp) |
                      (ids & e & He & Hp)]]].
    + rewrite (Hfind e He) in Hp. discriminate.
    + rewrite (Hcreate v e He) in Hp. discriminate.
    + rewrite (Hdelete v e He) in Hp. discriminate.
    + rewrite (Hcall ids e He) in Hp. discriminate.
Qed.

(** X4.  POST never calls the upstream API and issues at most one
    query: a [create] with the body's recipeId, exactly when the body
    can be destructured and that recipeId is truthy; otherwise the
    database is left as it was. *)
Theorem post_effects (request : VercelRequest) (response : VercelResponse)
    (w : World DB) :
  method request = "POST" ->
  let recipeId := getProp (body request) "recipeId" in
  let w' := snd (handler getFavouriteRecipesByIDs request response w) in
  upstreamCalls w' = upstreamCalls w /\
  if negb (isNullish (body request)) && truthy recipeId
  then queries w' = (queries w ++ [QCreate recipeId])%list /\
       db w' = snd (prisma_create recipeId (db w))
  else queries w' = queries w /\ db w' = db w.
Proof.
  intros Hm recipeId w'. subst recipeId w'. by_method Hm.
  unfold destructure, create.
  destruct (isNullish (body request)); cbn [negb andb].
  - catch_cases; cbn; auto.
  - destruct (truthy (getProp (body request) "recipeId")); cbn [negb]; cbv beta iota;
      [|cbn; auto].
    destruct (prisma_create _ (db w)) as [[created | e] d]; cbn; auto.
    catch_cases; cbn; auto.
Qed.

(** X5.  DELETE never calls the upstream API and issues at most one
    query: a [delete] with the body's recipeId, exactly when the body
    can be destructured and that recipeId is truthy. *)
Theorem delete_effects (request : VercelRequest) (response : VercelResponse)
    (w : World DB) :
  method request = "DELETE" ->
  let recipeId := getProp (body request) "recipeId" in
  let w' := snd (handler getFavouriteRecipesByIDs request response w) in
  upstreamCalls w' = upstreamCalls w /\
  if negb (isNullish (body request)) && truthy recipeId
  then queries w' = (queries w ++ [QDelete recipeId])%list /\
       db w' = snd (prisma_delete recipeId (db w))
  else queries w' = queries w /\ db w' = db w.
Proof.
  intros Hm recipeId w'. subst recipeId w'. by_method Hm.
  unfold destructure, delete_.
  destruct (isNullish (body request)); cbn [negb andb].
  - catch_cases; cbn; auto.
  - destruct (truthy (getProp (body request) "recipeId")); cbn [negb]; cbv beta iota;
      [|cbn; auto].
    destruct (prisma_delete _ (db w)) as [[deleted | e] d]; cbn; auto.
    catch_cases; cbn; auto.
Qed.

(** X6.  On GET with a non-empty table the upstream API is called
    exactly once, with every stored ID printed in decimal, in the order
    of the rows, whatever that call then returns or throws; with an
    empty table or a failing [findMany] it is not called. *)
Theorem get_calls_upstream_once (request : VercelRequest) (response : VercelResponse)
    (w : World DB) :
  method request = "GET" ->
  let w' := snd (handler getFavouriteRecipesByIDs request response w) in
  match prisma_findMany (db w) with
  | Normal [] | Thrown _ => upstreamCalls w' = upstreamCalls w
  | Normal rows =>
      upstreamCalls w' = (upstreamCalls w ++ [map (fun r => toString (recipeId r)) rows])%list
  end.
Proof.
  intros Hm w'. subst w'. by_method Hm. unfold findMany.
  destruct (prisma_findMany (db w)) as [[|row rows] | e]; cbn [snd].
  - reflexivity.
  - cbn [map length]. rewrite Nat2Z.inj_succ.
    destruct (Z.succ _ =? 0) eqn:Hz; [apply Z.eqb_eq in Hz; lia|].
    unfold callGetFavouriteRecipesByIDs.
    destruct (getFavouriteRecipesByIDs _) as [favourites | apiError]; cbn; auto.
    destruct (isApiLimitError apiError) as [[|] | e]; cbn; auto.
    + catch_cases; cbn; auto.
    + catch_cases; cbn; auto.
  - catch_cases; cbn; auto.
Qed.

(** X7.  When the upstream call returns, GET sends exactly what it
    returned, under status 200: the handler neither inspects nor
    re-orders the value. *)
Theorem get_success_passthrough (request : VercelRequest) (response : VercelResponse)
    (w : World DB) (rows : list FavouriteRecord) (favourites : jsval) :
  method request = "GET" ->
  prisma_findMany (db w) = Normal rows ->
  rows <> [] ->
  getFavouriteRecipesByIDs (storedIds rows) = Normal favourites ->
  exists r,
    fst (handler getFavouriteRecipesByIDs request response w) = Normal r /\
    statusCode r = 200 /\ sent r = Json favourites.
Proof.
  intros Hm Hrows Hne Hapi. by_method Hm.
  unfold findMany. rewrite Hrows.
  fold (storedIds rows). rewrite (storedIds_nonempty rows Hne).
  unfold callGetFavouriteRecipesByIDs; cbn [db queries upstreamCalls].
  rewrite Hapi. cbn. eexists. repeat split.
Qed.

(** X8.  When the store query of a request throws a value the [catch]
    block can print, the block answers: 409 "Recipe is already in
    favorites" for an Error whose message contains "Unique constraint",
    on GET and DELETE as on POST; otherwise 500, with the Error's own
    message in the body, or "Unknown error" for a thrown value that is
    not an Error.  When the thrown value is an object that [String]
    cannot convert, the block throws at its log line and the handler
    rejects with that TypeError. *)
Theorem store_failure_answer (request : VercelRequest) (response : VercelResponse)
    (w : World DB) (e : jsval) :
  (method request = "GET" /\ prisma_findMany (db w) = Thrown e) \/
  (method request = "POST" /\ isNullish (body request) = false /\
   truthy (getProp (body request) "recipeId") = true /\
   fst (prisma_create (getProp (body request) "recipeId") (db w)) = Thrown e) \/
  (method request = "DELETE" /\ isNullish (body request) = false /\
   truthy (getProp (body request) "recipeId") = true /\
   fst (prisma_delete (getProp (body request) "recipeId") (db w)) = Thrown e) ->
  let answer := fst (handler getFavouriteRecipesByIDs request response w) in
  (printable e = true ->
   exists r,
     answer = Normal r /\
     if uniqueConstraintError e
     then statusCode r = 409 /\
          sent r = Json (VObj [("error", VStr "Recipe is already in favorites")])
     else statusCode r = 500 /\
          sent r = Json (VObj [("error", VStr "Oops, something went wrong");
                               ("message", match e with
                                           | VError message _ => VStr message
                                           | _ => VStr "Unknown error"
                                           end)])) /\
  (printable e = false ->
   answer = Thrown (TypeError "Cannot convert object to primitive value")).
Proof.
  intros Hcase answer. subst answer.
  assert (Hcatch :
    fst (handler getFavouriteRecipesByIDs request response w) =
    match printError e with
    | Normal _ =>
        Normal (if uniqueConstraintError e
                then json (errorBody "Recipe is already in favorites")
                       (status 409 (setCorsHeaders response))
                else json (VObj [("error", VStr "Oops, something went wrong");
                                 ("message", if instanceofError e
                                             then getProp e "message"
                                             else VStr "Unknown error")])
                       (status 500 (setCorsHeaders response)))
    | Thrown te => Thrown te
    end).
  { destruct Hcase as [[Hm He] | [(Hm & Hb & Ht & He) | (Hm & Hb & Ht & He)]];
      by_method Hm.
    - unfold findMany. rewrite He. cbv beta iota.
      fold (uniqueConstraintError e).
      destruct (printError e); [destruct (uniqueConstraintError e)|]; reflexivity.
    - unfold destructure, create. rewrite Hb. cbv beta iota. rewrite Ht.
      cbn [negb]. cbv beta iota.
      destruct (prisma_create _ (db w)) as [c d]. cbn [fst] in He. subst c.
      cbv beta iota. fold (uniqueConstraintError e).
      destruct (printError e); [destruct (uniqueConstraintError e)|]; reflexivity.
    - unfold destructure, delete_. rewrite Hb. cbv beta iota. rewrite Ht.
      cbn [negb]. cbv beta iota.
      destruct (prisma_delete _ (db w)) as [c d]. cbn [fst] in He. subst c.
      cbv beta iota. fold (uniqueConstraintError e).
      destruct (printError e); [destruct (uniqueConstraintError e)|]; reflexivity. }
  rewrite Hcatch. split; intros Hp.
  - rewrite (printError_printable e Hp).
    destruct (uniqueConstraintError e); eexists; (split; [reflexivity|]);
      split; try reflexivity.
    destruct e; reflexivity.
  - rewrite (printError_unprintable e Hp). reflexivity.
Qed.

(** X10.  Only objects can be API-limit errors: when the upstream call
    throws a value that is not an object (a string, even one with the
    text "daily limit", a number, null or undefined) there is no
    degraded fallback, and GET is answered 500 with "Unknown error". *)
Theorem get_thrown_primitive (request : VercelRequest) (response : VercelResponse)
    (w : World DB) (rows : list FavouriteRecord) (e : jsval) :
  method request = "GET" ->
  prisma_findMany (db w) = Normal rows ->
  rows <> [] ->
  getFavouriteRecipesByIDs (storedIds rows) = Thrown e ->
  isPrimitive e = true ->
  exists r,
    fst (handler getFavouriteRecipesByIDs request response w) = Normal r /\
    statusCode r = 500 /\
    sent r = Json (VObj [("error", VStr "Oops, something went wrong");
                         ("message", VStr "Unknown error")]).
Proof.
  intros Hm Hrows Hne Hapi Hprim. by_method Hm.
  unfold findMany. rewrite Hrows.
  fold (storedIds rows). rewrite (storedIds_nonempty rows Hne).
  unfold callGetFavouriteRecipesByIDs; cbn [db queries upstreamCalls].
  rewrite Hapi.
  destruct e; try discriminate Hprim; cbn; eexists; repeat split.
Qed.

(** X11.  On POST, a failing [create] whose thrown value the [catch]
    block can print is answered 409 exactly when that value is an Error
    whose message contains the text "Unique constraint" somewhere, and
    500 otherwise.  A thrown object that [String] cannot convert is not
    answered: the handler rejects with the TypeError of the log line. *)
Theorem post_conflict_iff (request : VercelRequest) (response : VercelResponse)
    (w : World DB) (e : jsval) :
  method request = "POST" ->
  isNullish (body request) = false ->
  truthy (getProp (body request) "recipeId") = true ->
  fst (prisma_create (getProp (body request) "recipeId") (db w)) = Thrown e ->
  let answer := fst (handler getFavouriteRecipesByIDs request response w) in
  (printable e = true ->
   exists r,
     answer = Normal r /\
     (statusCode r = 409 \/ statusCode r = 500) /\
     (statusCode r = 409 <->
      exists pre post props, e = VError (pre ++ "Unique constraint" ++ post) props)) /\
  (printable e = false ->
   answer = Thrown (TypeError "Cannot convert object to primitive value")).
Proof.
  intros Hm Hb Ht He answer. subst answer. by_method Hm.
  unfold destructure, create. rewrite Hb. cbv beta iota. rewrite Ht.
  cbn [negb]. cbv beta iota.
  destruct (prisma_create _ (db w)) as [c d]. cbn [fst] in He. subst c.
  cbv beta iota.
  split; intros Hp;
    [rewrite (printError_printable e Hp)
    |rewrite (printError_unprintable e Hp); reflexivity].
  clear Hp.
  destruct e as [| | b | n | | s | elems | props | message props];
    try (cbn; eexists; split; [reflexivity|]; split; [right; reflexivity|];
         split; [discriminate|intros (? & ? & ? & [=])]).
  unfold messageIncludes.
  cbn [instanceofError getProp String.eqb Ascii.eqb Bool.eqb andb].
  destruct (includes message "Unique constraint") eqn:Hu; cbn;
    eexists; (split; [reflexivity|]).
  - split; [left; reflexivity|]. split; [intros _|reflexivity].
    apply includes_iff in Hu as (pre & post & ->). eauto.
  - split; [right; reflexivity|]. split; [discriminate|].
    intros (pre & post & props' & [= -> _]).
    assert (includes (pre ++ "Unique constraint" ++ post) "Unique constraint" = true)
      by (apply includes_iff; eauto).
    congruence.
Qed.

End HandlerFacts.

(** X9.  Classifying an Error never throws, and an Error counts as an
    API-limit error exactly when its [code] is the number 402 or its
    message contains "points limit" or "daily limit" somewhere. *)
Theorem error_limit_classification (message : string) (props : list (string * jsval)) :
  exists limit,
    isApiLimitError (VError message props) = Normal limit /\
    (limit = true <->
     assoc "code" props = VNum 402 \/
     (exists pre post, message = pre ++ "points limit" ++ post) \/
     (exists pre post, message = pre ++ "daily limit" ++ post)).
Proof.
  unfold isApiLimitError.
  cbn [optChain isNullish getProp String.eqb Ascii.eqb Bool.eqb optIncludes truthy].
  pose proof (includes_iff message "points limit") as Hp.
  pose proof (includes_iff message "daily limit") as Hd.
  assert (Hcode : strictEqNum (assoc "code" props) 402 = true <->
                  assoc "code" props = VNum 402).
  { destruct (assoc "code" props); cbn [strictEqNum];
      try (split; [discriminate|intros [=]]).
    rewrite Z.eqb_eq. split; [intros ->; reflexivity|intros [= ->]; reflexivity]. }
  destruct (strictEqNum (assoc "code" props) 402);
    [|destruct (includes message "points limit");
      [|destruct (includes message "daily limit")]];
    eexists; (split; [reflexivity|]); intuition discriminate.
Qed.

(** * auth.ts *)

Module AuthFacts.
Import Auth.

Lemma assoc_setAssoc_same (k : string) (v : jsval) (props : list (string * jsval)) :
  assoc k (setAssoc k v props) = v.
Proof.
  induction props as [|[k' v'] rest IH]; cbn.
  - rewrite String.eqb_refl. reflexivity.
  - destruct (String.eqb k' k) eqn:E; cbn.
    + rewrite String.eqb_refl. reflexivity.
    + rewrite E. exact IH.
Qed.

Lemma assoc_setAssoc_other (k k' : string) (v : jsval) (props : list (string * jsval)) :
  k <> k' -> assoc k' (setAssoc k v props) = assoc k' props.
Proof.
  intros Hne. induction props as [|[k0 v0] rest IH]; cbn.
  - apply String.eqb_neq in Hne. rewrite Hne. reflexivity.
  - destruct (String.eqb_spec k0 k) as [-> | Hk]; cbn.
    + apply String.eqb_neq in Hne. rewrite Hne. reflexivity.
    + destruct (String.eqb k0 k'); [reflexivity|exact IH].
Qed.

Lemma beforeAt_whole (s : string) :
  (forall pre post, s <> pre ++ "@" ++ post) -> beforeAt s = s.
Proof.
  induction s as [|c s IH]; intros Hno; [reflexivity|].
  cbn [beforeAt]. destruct (Ascii.eqb_spec c "@") as [-> | Hc].
  - exfalso. apply (Hno "" s). reflexivity.
  - f_equal. apply IH. intros pre post ->.
    apply (Hno (String c pre) post). reflexivity.
Qed.

Lemma beforeAt_local (local rest : string) :
  (forall pre post, local <> pre ++ "@" ++ post) ->
  beforeAt (local ++ "@" ++ rest) = local.
Proof.
  induction local as [|c local IH]; intros Hno; [reflexivity|].
  change (String c local ++ "@" ++ rest) with (String c (local ++ "@" ++ rest)).
  cbn [beforeAt]. destruct (Ascii.eqb_spec c "@") as [-> | Hc].
  - exfalso. apply (Hno "" local). reflexivity.
  - f_equal. apply IH. intros pre post ->.
    apply (Hno (String c pre) post). reflexivity.
Qed.

Lemma idFromEmail_truthy (prefix : option string) (now : Z) :
  truthy (VStr (idFromEmail prefix now)) = true.
Proof.
  unfold idFromEmail.
  destruct prefix as [[|c p]|]; reflexivity.
Qed.

(** Reads a property after a chain of assignments. *)
Ltac read_props :=
  repeat first
    [ rewrite assoc_setAssoc_same
    | rewrite assoc_setAssoc_other by discriminate ].

(** After a sign-in the token's [id], [email] and [name] are what the
    first block of [jwt] assigned: the later blocks write other
    properties. *)
Lemma jwt_sign_in_reads (now : Z) (token token' : list (string * jsval))
    (user account profile : jsval) :
  truthy user = true ->
  jwt now token user account profile = Normal token' ->
  exists id,
    generatedId user now = Normal id /\
    assoc "id" token' = id /\
    assoc "email" token' = getProp user "email" /\
    assoc "name" token' = getProp user "name".
Proof.
  intros Hu. unfold jwt. rewrite Hu.
  destruct (generatedId user now) as [id | e] eqn:Hid; [|discriminate].
  intros [= <-]. exists id. split; [reflexivity|]. cbv zeta.
  destruct (truthy account && _); destruct (truthy profile && _);
    try destruct (truthy (getProp profile "picture"));
    destruct (truthy (getProp user "image"));
    repeat split; read_props; reflexivity.
Qed.

End AuthFacts.

Ltac read_props :=
  repeat first
    [ rewrite AuthFacts.assoc_setAssoc_same
    | rewrite AuthFacts.assoc_setAssoc_other by discriminate ].

Section AuthorizeFacts.

Variable trim toLowerCase : string -> string.
Variable findUnique : string -> completion jsval.
Variable compare : jsval -> jsval -> completion bool.

(** X12.  [authorize] fails closed.  It never throws, and it returns
    either null or the user object of a database row: the latter only
    when the credentials carry a string email and a truthy password, the
    row found under the trimmed, lower-cased email has a truthy
    password, and [bcrypt.compare] answered true.  A failing database
    or comparison therefore gives null. *)
Theorem authorize_fails_closed (credentials : jsval) :
  Auth.authorize trim toLowerCase findUnique compare credentials = Normal VNull \/
  exists email dbUser,
    getProp credentials "email" = VStr email /\
    truthy (getProp credentials "password") = true /\
    findUnique (toLowerCase (trim email)) = Normal dbUser /\
    truthy (getProp dbUser "password") = true /\
    compare (getProp credentials "password") (getProp dbUser "password") = Normal true /\
    Auth.authorize trim toLowerCase findUnique compare credentials =
      Normal (Auth.userOf dbUser).
Proof.
  unfold Auth.authorize, optChain.
  destruct (isNullish credentials) eqn:Hn; [left; reflexivity|].
  destruct (truthy (getProp credentials "email")) eqn:He; [|left; reflexivity].
  destruct (truthy (getProp credentials "password")) eqn:Hp; [|left; reflexivity].
  cbn [negb orb].
  destruct (getProp credentials "email") as [| | | | | email | | |] eqn:Hemail;
    try (left; reflexivity).
  cbn [Auth.normalizeEmail].
  destruct (findUnique (toLowerCase (trim email))) as [dbUser | e] eqn:Hfind;
    [|left; reflexivity].
  destruct (truthy dbUser); [|left; reflexivity].
  destruct (truthy (getProp dbUser "password")) eqn:Hstored; [|left; reflexivity].
  cbn [negb orb].
  destruct (compare _ _) as [[|] | e] eqn:Hcmp; try (left; reflexivity).
  right. exists email, dbUser. repeat split; auto.
Qed.

(** X13.  [authorize] accepts every valid login: when the credentials
    carry a non-empty string email and a truthy password, the row found
    under the trimmed, lower-cased email has a truthy password and
    [bcrypt.compare] answers true, it returns an object with the row's
    id and email, the row's name, and the row's picture as [image]; a
    falsy name or picture is returned as undefined.  The stored
    password is not part of it. *)
Theorem authorize_accepts (credentials : jsval) (email : string) (dbUser : jsval) :
  isNullish credentials = false ->
  getProp credentials "email" = VStr email ->
  email <> "" ->
  truthy (getProp credentials "password") = true ->
  findUnique (toLowerCase (trim email)) = Normal dbUser ->
  truthy dbUser = true ->
  truthy (getProp dbUser "password") = true ->
  compare (getProp credentials "password") (getProp dbUser "password") = Normal true ->
  Auth.authorize trim toLowerCase findUnique compare credentials =
    Normal (VObj [("id", getProp dbUser "id");
                  ("email", getProp dbUser "email");
                  ("name", if truthy (getProp dbUser "name")
                           then getProp dbUser "name" else VUndefined);
                  ("image", if truthy (getProp dbUser "picture")
                            then getProp dbUser "picture" else VUndefined)]).
Proof.
  intros Hn Hemail Hne Hp Hfind Hdb Hstored Hcmp.
  unfold Auth.authorize, optChain. rewrite Hn, Hemail, Hp.
  apply String.eqb_neq in Hne. cbn [truthy]. rewrite Hne. cbn [negb orb].
  cbn [Auth.normalizeEmail]. rewrite Hfind, Hdb, Hstored. cbn [negb orb].
  rewrite Hcmp. reflexivity.
Qed.

End AuthorizeFacts.

(** X14.  A [jwt] call with no user and no account (a token refresh)
    returns the token as it was. *)
Theorem jwt_refresh_keeps_token (now : Z) (token : list (string * jsval))
    (user account profile : jsval) :
  truthy user = false ->
  truthy account = false ->
  Auth.jwt now token user account profile = Normal token.
Proof.
  intros Hu Ha. unfold Auth.jwt. rewrite Hu, Ha.
  replace (Auth.strictEqStr (optChain account "provider") "google") with false.
  - rewrite andb_false_r. reflexivity.
  - destruct account; try discriminate Ha; reflexivity.
Qed.

(** X15.  On sign-in (a truthy user) the token's [id] is the user's own
    id when that is truthy.  Otherwise it is made from the user's email
    and the clock value: what precedes the first "@" of the email (all
    of it when it has no "@"), then "_" and the clock value; for a user
    with no email, the text "undefined", "_" and the clock value.  It
    is truthy in every case, so the `user_` fallback is never what
    decides it.  The token's [email] and [name] are the user's. *)
Theorem jwt_sign_in_id (now : Z) (token token' : list (string * jsval))
    (user account profile : jsval) :
  truthy user = true ->
  Auth.jwt now token user account profile = Normal token' ->
  truthy (assoc "id" token') = true /\
  (truthy (getProp user "id") = true -> assoc "id" token' = getProp user "id") /\
  (truthy (getProp user "id") = false ->
   (forall local rest,
      getProp user "email" = VStr (local ++ "@" ++ rest) ->
      (forall pre post, local <> pre ++ "@" ++ post) ->
      assoc "id" token' = VStr (local ++ "_" ++ toString now)) /\
   (forall s,
      getProp user "email" = VStr s ->
      (forall pre post, s <> pre ++ "@" ++ post) ->
      assoc "id" token' = VStr (s ++ "_" ++ toString now)) /\
   (isNullish (getProp user "email") = true ->
    assoc "id" token' = VStr ("undefined_" ++ toString now))) /\
  assoc "email" token' = getProp user "email" /\
  assoc "name" token' = getProp user "name".
Proof.
  intros Hu Hjwt.
  destruct (AuthFacts.jwt_sign_in_reads now token token' user account profile Hu Hjwt)
    as (id & Hid & -> & -> & ->).
  unfold Auth.generatedId in Hid.
  destruct (truthy (getProp user "id")) eqn:Huid.
  - injection Hid as <-. repeat split; auto; discriminate.
  - destruct (Auth.emailPrefix (getProp user "email")) as [prefix | e] eqn:Hpre;
      [|discriminate].
    injection Hid as <-. unfold Auth.orElse.
    rewrite AuthFacts.idFromEmail_truthy.
    split; [apply AuthFacts.idFromEmail_truthy|].
    split; [discriminate|]. split; [|split; reflexivity].
    intros _. split; [|split].
    + intros local rest Hemail Hno. rewrite Hemail in Hpre.
      cbn [Auth.emailPrefix] in Hpre. injection Hpre as <-.
      rewrite (AuthFacts.beforeAt_local local rest Hno). reflexivity.
    + intros s Hemail Hno. rewrite Hemail in Hpre.
      cbn [Auth.emailPrefix] in Hpre. injection Hpre as <-.
      rewrite (AuthFacts.beforeAt_whole s Hno). reflexivity.
    + intros Hnull.
      destruct (getProp user "email"); try discriminate Hnull;
        cbn [Auth.emailPrefix] in Hpre; injection Hpre as <-; reflexivity.
Qed.

(** X16.  The provider's tokens reach the JWT only for an OAuth
    account: with the "credentials" provider, or with no account, the
    token's [accessToken], [refreshToken] and [expiresAt] stay as they
    were; with any other provider they are the account's
    [access_token], [refresh_token] and [expires_at]. *)
Theorem jwt_provider_tokens (now : Z) (token token' : list (string * jsval))
    (user account profile : jsval) :
  Auth.jwt now token user account profile = Normal token' ->
  if truthy account && negb (Auth.strictEqStr (getProp account "provider") "credentials")
  then assoc "accessToken" token' = getProp account "access_token" /\
       assoc "refreshToken" token' = getProp account "refresh_token" /\
       assoc "expiresAt" token' = getProp account "expires_at"
  else assoc "accessToken" token' = assoc "accessToken" token /\
       assoc "refreshToken" token' = assoc "refreshToken" token /\
       assoc "expiresAt" token' = assoc "expiresAt" token.
Proof.
  intros Hjwt. unfold Auth.jwt in Hjwt.
  destruct (truthy user).
  - destruct (Auth.generatedId user now) as [id | e]; [|discriminate].
    injection Hjwt as <-. cbv zeta.
    destruct (truthy account && _); destruct (truthy profile && _);
      try destruct (truthy (getProp profile "picture"));
      destruct (truthy (getProp user "image"));
      repeat split; read_props; reflexivity.
  - injection Hjwt as <-. cbv zeta.
    destruct (truthy account && _); destruct (truthy profile && _);
      try destruct (truthy (getProp profile "picture"));
      repeat split; read_props; reflexivity.
Qed.

(** X17.  The [session] callback copies the token's [id] and
    [accessToken] into [session.user], and the token's [picture] into
    [image] when it is truthy; every other property of the user and of
    the session is kept.  A session without a user is returned as it
    is. *)
Theorem session_copies_token (s : Auth.Session) (token : list (string * jsval)) :
  match Auth.user s with
  | None => Auth.session s token = s
  | Some u =>
      exists u',
        Auth.session s token = {| Auth.user := Some u'; Auth.others := Auth.others s |} /\
        assoc "id" u' = assoc "id" token /\
        assoc "accessToken" u' = assoc "accessToken" token /\
        assoc "image" u' = (if truthy (assoc "picture" token)
                            then assoc "picture" token
                            else assoc "image" u) /\
        forall k, k <> "id" -> k <> "accessToken" -> k <> "image" ->
                  assoc k u' = assoc k u
  end.
Proof.
  unfold Auth.session. destruct (Auth.user s) as [u|] eqn:Hu; [|reflexivity].
  eexists. split; [reflexivity|].
  destruct (truthy (assoc "picture" token)); repeat split; read_props; try reflexivity.
  - intros k Hid Hacc Himg.
    rewrite !AuthFacts.assoc_setAssoc_other by congruence. reflexivity.
  - intros k Hid Hacc Himg.
    rewrite !AuthFacts.assoc_setAssoc_other by congruence. reflexivity.
Qed.

(** X18.  Sign-in composed with the session callback: the token [jwt]
    returns for a truthy user gives every session that has a user a
    truthy [user.id], which is the signing-in user's own id when that is
    truthy. *)
Theorem sign_in_reaches_session (now : Z) (token token' : list (string * jsval))
    (user account profile : jsval) (s : Auth.Session) (u : list (string * jsval)) :
  truthy user = true ->
  Auth.jwt now token user account profile = Normal token' ->
  Auth.user s = Some u ->
  exists u',
    Auth.user (Auth.session s token') = Some u' /\
    truthy (assoc "id" u') = true /\
    (truthy (getProp user "id") = true -> assoc "id" u' = getProp user "id").
Proof.
  intros Hu Hjwt Hs.
  destruct (AuthFacts.jwt_sign_in_reads now token token' user account profile Hu Hjwt)
    as (id & Hid & Htok & _).
  unfold Auth.session. rewrite Hs. eexists. split; [reflexivity|].
  assert (Hread : forall t : list (string * jsval),
            assoc "id" (if truthy (assoc "picture" token')
                        then Auth.setAssoc "image" (assoc "picture" token') t
                        else t) = assoc "id" t).
  { intros t. destruct (truthy (assoc "picture" token')); read_props; reflexivity. }
  rewrite Hread. read_props. rewrite Htok.
  unfold Auth.generatedId in Hid.
  destruct (truthy (getProp user "id")) eqn:Huid.
  - injection Hid as <-. split; auto.
  - destruct (Auth.emailPrefix (getProp user "email")) as [prefix | e]; [|discriminate].
    injection Hid as <-. unfold Auth.orElse.
    rewrite AuthFacts.idFromEmail_truthy.
    split; [apply AuthFacts.idFromEmail_truthy|discriminate].
Qed.

(** * The sign-up route *)

Module SignupFacts.
Import Signup.

Section Strings.

Context {platform : Platform}.

Lemma afterAt_split (s d : string) :
  afterAt s = Some d -> s = Auth.beforeAt s ++ "@" ++ d.
Proof.
  revert d. induction s as [|c s IH]; intros d; cbn [afterAt Auth.beforeAt].
  - discriminate.
  - destruct (Ascii.eqb_spec c "@") as [-> | Hc].
    + intros [= ->]. reflexivity.
    + intros Hd. apply IH in Hd.
      change (String c (Auth.beforeAt s) ++ "@" ++ d)
        with (String c (Auth.beforeAt s ++ "@" ++ d)).
      congruence.
Qed.

Lemma plain_prefix (a rest : string) :
  allPlain a = true ->
  Auth.beforeAt (a ++ "@" ++ rest) = a /\
  afterAt (a ++ "@" ++ rest) = Some rest.
Proof.
  induction a as [|c a IH]; intros Ha.
  - split; reflexivity.
  - cbn [allPlain] in Ha. apply andb_prop in Ha as [Hc Ha].
    unfold plainChar in Hc. apply andb_prop in Hc as [_ Hat].
    apply negb_true_iff in Hat.
    change (String c a ++ "@" ++ rest) with (String c (a ++ "@" ++ rest)).
    cbn [Auth.beforeAt afterAt]. rewrite Hat.
    destruct (IH Ha) as [-> ->]. split; reflexivity.
Qed.

Lemma allPlain_app (a b : string) :
  allPlain (a ++ b) = allPlain a && allPlain b.
Proof.
  induction a as [|c a IH]; [reflexivity|].
  change (String c a ++ b) with (String c (a ++ b)).
  cbn [allPlain]. rewrite IH, andb_assoc. reflexivity.
Qed.

Lemma dotBeforeEnd_iff (s : string) :
  dotBeforeEnd s = true <-> exists x y, s = x ++ "." ++ y /\ y <> "".
Proof.
  split.
  - induction s as [|c s IH]; cbn [dotBeforeEnd]; [discriminate|].
    intros H. apply orb_prop in H as [H | H].
    + apply andb_prop in H as [Hc Hs].
      apply Ascii.eqb_eq in Hc. subst c.
      apply negb_true_iff, String.eqb_neq in Hs.
      exists "", s. split; [reflexivity|exact Hs].
    + apply IH in H as (x & y & -> & Hy).
      exists (String c x), y. split; [reflexivity|exact Hy].
  - intros (x & y & -> & Hy). induction x as [|c x IH].
    + change ("" ++ "." ++ y) with (String "." y). cbn [dotBeforeEnd].
      apply String.eqb_neq in Hy. rewrite Hy. reflexivity.
    + change (String c x ++ "." ++ y) with (String c (x ++ "." ++ y)).
      cbn [dotBeforeEnd]. rewrite IH. apply orb_true_r.
Qed.

Lemma allPlain_noSpace (s : string) : allPlain s = true -> noSpace s = true.
Proof.
  induction s as [|c s IH]; [reflexivity|].
  cbn [allPlain noSpace]. unfold plainChar.
  intros H. apply andb_prop in H as [Hc Hs]. apply andb_prop in Hc as [-> _].
  rewrite (IH Hs). reflexivity.
Qed.

Lemma noSpace_app (a b : string) : noSpace (a ++ b) = noSpace a && noSpace b.
Proof.
  induction a as [|c a IH]; [reflexivity|].
  change (String c a ++ b) with (String c (a ++ b)).
  cbn [noSpace]. rewrite IH, andb_assoc. reflexivity.
Qed.

Lemma noSpace_trimStart (s : string) : noSpace s = true -> trimStart s = s.
Proof.
  destruct s as [|c s]; [reflexivity|].
  cbn [noSpace trimStart]. intros H. apply andb_prop in H as [Hc _].
  apply negb_true_iff in Hc. rewrite Hc. reflexivity.
Qed.

Lemma noSpace_trimEnd (s : string) : noSpace s = true -> trimEnd s = s.
Proof.
  induction s as [|c s IH]; [reflexivity|].
  cbn [noSpace trimEnd]. intros H. apply andb_prop in H as [Hc Hs].
  apply negb_true_iff in Hc. rewrite (IH Hs).
  destruct s; [rewrite Hc|]; reflexivity.
Qed.

Lemma emailRegexTest_noSpace (s : string) :
  emailRegexTest s = true -> noSpace s = true.
Proof.
  unfold emailRegexTest. intros H.
  apply andb_prop in H as [H Hd]. apply andb_prop in H as [_ Ha].
  destruct (afterAt s) as [[|c rest]|] eqn:Hafter; try discriminate.
  apply andb_prop in Hd as [Hd _].
  rewrite (afterAt_split s _ Hafter), !noSpace_app.
  apply allPlain_noSpace in Ha, Hd. rewrite Ha, Hd.
  cbn [noSpace]. rewrite isSpace_at. reflexivity.
Qed.

Lemma emailRegexTest_nonempty (s : string) : emailRegexTest s = true -> s <> "".
Proof.
  intros H ->. discriminate H.
Qed.

Lemma valid_email_key (s : string) :
  emailRegexTest s = true ->
  normalizedEmail (VStr s) = Normal (toLowerCase s).
Proof.
  intros H. apply emailRegexTest_noSpace in H.
  unfold normalizedEmail, trim.
  rewrite (noSpace_trimStart s H), (noSpace_trimEnd s H). reflexivity.
Qed.

End Strings.

End SignupFacts.

Lemma includes_longer (s sub tail : string) :
  includes s (sub ++ tail) = true -> includes s sub = true.
Proof.
  rewrite !includes_iff. intros (pre & post & ->).
  exists pre, (tail ++ post).
  f_equal. clear. induction sub as [|c sub IH]; [reflexivity|].
  change (String c sub ++ tail) with (String c (sub ++ tail)).
  change ((String c (sub ++ tail)) ++ post) with (String c ((sub ++ tail) ++ post)).
  change (String c sub ++ tail ++ post) with (String c (sub ++ tail ++ post)).
  f_equal. exact IH.
Qed.

Section SignupRoute.

Context {platform : Signup.Platform}.

(** X19.  The regular expression of the route accepts exactly the
    strings of the form local "@" domain "." top in which the three
    parts are non-empty and hold neither white space nor "@"; the
    domain and the top part may themselves hold dots. *)
Theorem emailRegex_language (s : string) :
  Signup.emailRegexTest s = true <->
  exists a b c,
    s = a ++ "@" ++ b ++ "." ++ c /\
    a <> "" /\ b <> "" /\ c <> "" /\
    Signup.allPlain a = true /\ Signup.allPlain b = true /\ Signup.allPlain c = true.
Proof.
  unfold Signup.emailRegexTest. split.
  - intros H. apply andb_prop in H as [H Hd]. apply andb_prop in H as [Hne Ha].
    apply negb_true_iff, String.eqb_neq in Hne.
    destruct (Signup.afterAt s) as [[|c0 rest]|] eqn:Hafter; try discriminate.
    apply andb_prop in Hd as [Hplain Hdot].
    apply SignupFacts.dotBeforeEnd_iff in Hdot as (x & y & -> & Hy).
    exists (Auth.beforeAt s), (String c0 x), y.
    change (String c0 (x ++ "." ++ y)) with (String c0 x ++ "." ++ y) in Hplain, Hafter.
    rewrite !SignupFacts.allPlain_app in Hplain.
    apply andb_prop in Hplain as [Hb Hrest]. apply andb_prop in Hrest as [_ Hc].
    split; [apply SignupFacts.afterAt_split; exact Hafter|].
    repeat split; auto.
  - intros (a & b & c & -> & Ha & Hb & Hc & Hpa & Hpb & Hpc).
    destruct (SignupFacts.plain_prefix a (b ++ "." ++ c) Hpa) as [-> ->].
    apply String.eqb_neq in Ha. rewrite Ha, Hpa. cbn [negb andb].
    destruct b as [|c0 x]; [congruence|].
    change (String c0 x ++ "." ++ c) with (String c0 (x ++ "." ++ c)).
    apply andb_true_intro. split.
    + change (String c0 (x ++ "." ++ c)) with (String c0 x ++ "." ++ c).
      rewrite !SignupFacts.allPlain_app, Hpb, Hpc.
      cbn [Signup.allPlain]. unfold Signup.plainChar.
      rewrite Signup.isSpace_dot. reflexivity.
    + apply SignupFacts.dotBeforeEnd_iff. exists x, c. split; [reflexivity|exact Hc].
Qed.

(** X20.  An email the regular expression accepts holds no white
    space, so trimming it changes nothing: the key the route looks up
    and stores is the email in lower case. *)
Theorem valid_email_needs_no_trim (s : string) :
  Signup.emailRegexTest s = true ->
  Signup.trim s = s /\
  Signup.normalizedEmail (VStr s) = Normal (Signup.toLowerCase s).
Proof.
  intros H. split; [|apply SignupFacts.valid_email_key; exact H].
  apply SignupFacts.emailRegexTest_noSpace in H. unfold Signup.trim.
  rewrite (SignupFacts.noSpace_trimStart s H). apply SignupFacts.noSpace_trimEnd, H.
Qed.

(** Unfolds the route up to the calls it makes. *)
Ltac route :=
  unfold Signup.POST, Signup.attempt, Signup.andThen, Signup.lift, Signup.perform,
    Signup.pure, Signup.raise, Signup.destructureBody.


(** X22.  The password length is checked before the email format: a
    string password of fewer than six characters is answered 400
    "Password must be at least 6 characters long" whatever the (truthy)
    email is, valid or not, and nothing is queried or hashed. *)
Theorem signup_short_password (request : Signup.NextRequest) (body : jsval)
    (password : string) :
  Signup.handleCorsPreflight request = None ->
  Signup.requestJson request = Normal body ->
  isNullish body = false ->
  truthy (getProp body "email") = true ->
  getProp body "password" = VStr password ->
  (0 < String.length password < 6)%nat ->
  Signup.POST request =
    (Signup.jsonResponse
       (VObj [("error", VStr "Password must be at least 6 characters long")]) 400,
     []).
Proof.
  intros Hcors Hjson Hbody Hemail Hpw Hlen. route.
  rewrite Hcors, Hjson, Hbody. cbv beta iota zeta. rewrite Hemail, Hpw.
  assert (Ht : truthy (VStr password) = true).
  { destruct password; [cbn in Hlen; lia|reflexivity]. }
  rewrite Ht. cbn [negb orb Signup.lengthOf Signup.lessThan].
  assert (Hlt : (Z.of_nat (String.length password) <? 6) = true)
    by (apply Z.ltb_lt; lia).
  rewrite Hlt. reflexivity.
Qed.

(** X23.  A string email that the regular expression rejects, sent
    with a password of six characters or more, is answered 400 "Invalid
    email format", and nothing is queried or hashed. *)
Theorem signup_invalid_email (request : Signup.NextRequest) (body : jsval)
    (email password : string) :
  Signup.handleCorsPreflight request = None ->
  Signup.requestJson request = Normal body ->
  isNullish body = false ->
  getProp body "email" = VStr email ->
  email <> "" ->
  getProp body "password" = VStr password ->
  (6 <= String.length password)%nat ->
  Signup.emailRegexTest email = false ->
  Signup.POST request =
    (Signup.jsonResponse (VObj [("error", VStr "Invalid email format")]) 400, []).
Proof.
  intros Hcors Hjson Hbody Hemail Hne Hpw Hlen Hregex. route.
  rewrite Hcors, Hjson, Hbody. cbv beta iota zeta. rewrite Hemail, Hpw.
  assert (Hte : truthy (VStr email) = true).
  { destruct email; [congruence|reflexivity]. }
  assert (Htp : truthy (VStr password) = true).
  { destruct password; [cbn in Hlen; lia|reflexivity]. }
  rewrite Hte, Htp. cbn [negb orb Signup.lengthOf Signup.lessThan Signup.toText].
  assert (Hlt : (Z.of_nat (String.length password) <? 6) = false)
    by (apply Z.ltb_ge; lia).
  rewrite Hlt, Hregex. reflexivity.
Qed.

(** The checks a body passes before the route turns to the database. *)
Lemma signup_reaches_lookup (request : Signup.NextRequest) (body : jsval)
    (email password : string) :
  Signup.handleCorsPreflight request = None ->
  Signup.requestJson request = Normal body ->
  isNullish body = false ->
  getProp body "email" = VStr email ->
  getProp body "password" = VStr password ->
  (6 <= String.length password)%nat ->
  Signup.emailRegexTest email = true ->
  truthy (getProp body "email") = true /\
  truthy (getProp body "password") = true /\
  Signup.lessThan (Signup.lengthOf (getProp body "password")) 6 = false /\
  Signup.emailRegexTest (Signup.toText (getProp body "email")) = true /\
  Signup.normalizedEmail (getProp body "email") = Normal (Signup.toLowerCase email).
Proof.
  intros Hcors Hjson Hbody Hemail Hpw Hlen Hregex. rewrite Hemail, Hpw.
  repeat split.
  - pose proof (SignupFacts.emailRegexTest_nonempty email Hregex).
    destruct email; [congruence|reflexivity].
  - destruct password; [cbn in Hlen; lia|reflexivity].
  - cbn [Signup.lengthOf Signup.lessThan]. apply Z.ltb_ge. lia.
  - exact Hregex.
  - apply SignupFacts.valid_email_key, Hregex.
Qed.

(** X24.  When the lower-cased email already has a row, a valid
    sign-up is answered 409 "User already exists" after the one lookup:
    the password is not hashed and nothing is created. *)
Theorem signup_existing_user (request : Signup.NextRequest) (body : jsval)
    (email password : string) (existingUser : jsval) :
  Signup.handleCorsPreflight request = None ->
  Signup.requestJson request = Normal body ->
  isNullish body = false ->
  getProp body "email" = VStr email ->
  getProp body "password" = VStr password ->
  (6 <= String.length password)%nat ->
  Signup.emailRegexTest email = true ->
  Signup.findUnique (Signup.toLowerCase email) = Normal existingUser ->
  truthy existingUser = true ->
  Signup.POST request =
    (Signup.jsonResponse
       (VObj [("error", VStr "User already exists");
              ("message",
               VStr "An account with this email already exists. Please sign in instead.")])
       409,
     [Signup.FindUnique (Signup.toLowerCase email)]).
Proof.
  intros Hcors Hjson Hbody Hemail Hpw Hlen Hregex Hfind Hexists.
  destruct (signup_reaches_lookup request body email password)
    as (Hte & Htp & Hlt & Hre & Hkey); auto.
  route. rewrite Hcors, Hjson, Hbody. cbv beta iota zeta.
  rewrite Hte, Htp, Hlt, Hre, Hkey. cbn [negb orb]. cbv beta iota zeta.
  rewrite Hfind. cbv beta iota zeta. rewrite Hexists. reflexivity.
Qed.

(** X25.  A valid sign-up for a new email is answered 201 with the id,
    email and name of the created row, after exactly three calls in
    this order: the lookup, the hash of the password with ten salt
    rounds, and the creation of a row that holds the lower-cased email,
    the hash in place of the password, no picture, and the id "user_",
    the email's local part, "_" and the clock value. *)
Theorem signup_creates_user (request : Signup.NextRequest) (body : jsval)
    (email password : string) (existingUser hashedPassword storedName newUser : jsval) :
  Signup.handleCorsPreflight request = None ->
  Signup.requestJson request = Normal body ->
  isNullish body = false ->
  getProp body "email" = VStr email ->
  getProp body "password" = VStr password ->
  (6 <= String.length password)%nat ->
  Signup.emailRegexTest email = true ->
  Signup.findUnique (Signup.toLowerCase email) = Normal existingUser ->
  truthy existingUser = false ->
  Signup.hash (VStr password) 10 = Normal hashedPassword ->
  Signup.trimmedName (getProp body "name") = Normal storedName ->
  let data :=
    VObj [("id", VStr ("user_" ++ Auth.beforeAt email ++ "_" ++ toString Signup.now));
          ("email", VStr (Signup.toLowerCase email));
          ("name", storedName);
          ("password", hashedPassword);
          ("picture", VNull)] in
  Signup.create data = Normal newUser ->
  isNullish newUser = false ->
  Signup.POST request =
    (Signup.jsonResponse
       (VObj [("success", VBool true);
              ("message", VStr "Account created successfully! Please sign in.");
              ("user", VObj [("id", getProp newUser "id");
                             ("email", getProp newUser "email");
                             ("name", getProp newUser "name")])])
       201,
     [Signup.FindUnique (Signup.toLowerCase email);
      Signup.Hash (VStr password) 10;
      Signup.Create data]).
Proof.
  intros Hcors Hjson Hbody Hemail Hpw Hlen Hregex Hfind Hnew Hhash Hname data
    Hcreate Hrow. subst data.
  destruct (signup_reaches_lookup request body email password)
    as (Hte & Htp & Hlt & Hre & Hkey); auto.
  route. rewrite Hcors, Hjson, Hbody. cbv beta iota zeta.
  rewrite Hte, Htp, Hlt, Hre, Hkey. cbn [negb orb]. cbv beta iota zeta.
  rewrite Hfind. cbv beta iota zeta. rewrite Hnew. cbv beta iota zeta.
  rewrite Hemail, Hpw. rewrite Hhash. cbv beta iota zeta.
  cbn [Signup.localPart]. cbv beta iota zeta.
  rewrite Hname. cbv beta iota zeta. rewrite Hcreate. cbv beta iota zeta.
  rewrite Hrow. reflexivity.
Qed.

(** X26.  A row is only ever created for a body that passed every
    check: whenever the route calls [create], the body carried a string
    email the regular expression accepts and a truthy password that is
    not shorter than six, the lookup of the lower-cased email found
    nothing, and the row's password is what [bcrypt.hash] returned for
    that password, never the password itself. *)
Theorem signup_create_guard (request : Signup.NextRequest) (data : jsval) :
  In (Signup.Create data) (snd (Signup.POST request)) ->
  exists body email existingUser hashedPassword,
    Signup.requestJson request = Normal body /\
    getProp body "email" = VStr email /\
    Signup.emailRegexTest email = true /\
    truthy (getProp body "password") = true /\
    Signup.lessThan (Signup.lengthOf (getProp body "password")) 6 = false /\
    Signup.findUnique (Signup.toLowerCase email) = Normal existingUser /\
    truthy existingUser = false /\
    Signup.hash (getProp body "password") 10 = Normal hashedPassword /\
    getProp data "password" = hashedPassword /\
    getProp data "email" = VStr (Signup.toLowerCase email).
Proof.
  route.
  destruct (Signup.handleCorsPreflight request); [intros []|].
  destruct (Signup.requestJson request) as [body | e]; [|intros [[=] | []]].
  destruct (isNullish body); [intros [[=] | []]|]. cbv beta iota zeta.
  destruct (truthy (getProp body "email")) eqn:Hte; [|intros []].
  destruct (truthy (getProp body "password")) eqn:Htp; [|intros []].
  cbn [negb orb].
  destruct (Signup.lessThan _ 6) eqn:Hlt; [intros []|].
  destruct (getProp body "email") as [| | | | | email | | |] eqn:Hemail;
    cbn [Signup.toText Signup.normalizedEmail];
    try (destruct (Signup.emailRegexTest _); cbn; intros Hin;
         intuition discriminate).
  destruct (Signup.emailRegexTest email) eqn:Hregex; [|intros []].
  cbn [negb]. cbv beta iota zeta.
  pose proof (SignupFacts.valid_email_key email Hregex) as Hkey.
  cbn [Signup.normalizedEmail] in Hkey. injection Hkey as Hkey. rewrite Hkey.
  destruct (Signup.findUnique (Signup.toLowerCase email)) as [existingUser | e] eqn:Hfind;
    [|intros [[=] | [[=] | []]]].
  destruct (truthy existingUser) eqn:Hexists; [intros [[=] | []]|].
  destruct (Signup.hash _ 10) as [hashedPassword | e] eqn:Hhash;
    [|cbn; intros [[=] | [[=] | [[=] | []]]]].
  cbn [Signup.localPart]. cbv beta iota zeta.
  destruct (Signup.trimmedName _) as [storedName | e];
    [|cbn; intros [[=] | [[=] | [[=] | []]]]].
  cbv beta iota zeta.
  intros Hin.
  assert (Hdata : data =
            VObj [("id", VStr ("user_" ++ Auth.beforeAt email ++ "_" ++ toString Signup.now));
                  ("email", VStr (Signup.toLowerCase email));
                  ("name", storedName);
                  ("password", hashedPassword);
                  ("picture", VNull)]).
  { destruct (Signup.create _) as [newUser | e];
      [destruct (isNullish newUser)|];
      cbn in Hin; intuition congruence. }
  exists body, email, existingUser, hashedPassword.
  rewrite Hdata. repeat split; auto.
Qed.

(** What the [catch] block answers for an Error depends on its message
    alone, and the separate test for "Unique constraint" adds nothing
    to the one for "Unique". *)
Lemma handleError_cases (error : jsval) :
  Signup.handleError error =
  match error with
  | VError message _ =>
      if includes message "Unique"
      then Signup.jsonResponse Signup.userExists 409
      else if includes message "connect" || includes message "timeout"
      then Signup.jsonResponse
             (VObj [("error", VStr "Database error");
                    ("message", VStr "Failed to connect to database. Please try again.")])
             500
      else Signup.jsonResponse
             (VObj [("error", VStr "Sign up failed"); ("message", VStr message)]) 500
  | _ =>
      Signup.jsonResponse
        (VObj [("error", VStr "Sign up failed");
               ("message", VStr "Unknown error occurred")]) 500
  end.
Proof.
  unfold Signup.handleError.
  destruct error as [| | b | n | | s | elems | props | message props];
    try reflexivity.
  unfold messageIncludes.
  cbn [instanceofError getProp String.eqb Ascii.eqb Bool.eqb andb].
  destruct (includes message "Unique") eqn:Hu.
  - rewrite orb_true_r. reflexivity.
  - destruct (includes message "Unique constraint") eqn:Huc.
    + apply (includes_longer message "Unique" " constraint") in Huc. congruence.
    + reflexivity.
Qed.

(** X27.  When the lookup of a valid sign-up throws, nothing is hashed
    or created: the route reports the error once and answers from its
    [catch] block.  For an Error the answer depends on the message: 409
    "User already exists" when it contains "Unique"; else 500 "Database
    error" when it contains "connect" or "timeout"; else 500 "Sign up
    failed" with the message itself.  A thrown value that is not an
    Error is answered 500 "Sign up failed" with "Unknown error
    occurred". *)
Theorem signup_lookup_failure (request : Signup.NextRequest) (body : jsval)
    (email password : string) (e : jsval) :
  Signup.handleCorsPreflight request = None ->
  Signup.requestJson request = Normal body ->
  isNullish body = false ->
  getProp body "email" = VStr email ->
  getProp body "password" = VStr password ->
  (6 <= String.length password)%nat ->
  Signup.emailRegexTest email = true ->
  Signup.findUnique (Signup.toLowerCase email) = Thrown e ->
  exists answer,
    Signup.POST request =
      (answer, [Signup.FindUnique (Signup.toLowerCase email);
                Signup.CaptureException e]) /\
    (forall message props,
       e = VError message props ->
       (contains message "Unique" ->
        answer = Signup.jsonResponse
                   (VObj [("error", VStr "User already exists");
                          ("message",
                           VStr "An account with this email already exists. Please sign in instead.")])
                   409) /\
       (~ contains message "Unique" ->
        contains message "connect" \/ contains message "timeout" ->
        answer = Signup.jsonResponse
                   (VObj [("error", VStr "Database error");
                          ("message",
                           VStr "Failed to connect to database. Please try again.")])
                   500) /\
       (~ contains message "Unique" ->
        ~ contains message "connect" ->
        ~ contains message "timeout" ->
        answer = Signup.jsonResponse
                   (VObj [("error", VStr "Sign up failed"); ("message", VStr message)])
                   500)) /\
    (instanceofError e = false ->
     answer = Signup.jsonResponse
                (VObj [("error", VStr "Sign up failed");
                       ("message", VStr "Unknown error occurred")])
                500).
Proof.
  intros Hcors Hjson Hbody Hemail Hpw Hlen Hregex Hfind.
  destruct (signup_reaches_lookup request body email password)
    as (Hte & Htp & Hlt & Hre & Hkey); auto.
  exists (Signup.handleError e). split; [|split].
  - route. rewrite Hcors, Hjson, Hbody. cbv beta iota zeta.
    rewrite Hte, Htp, Hlt, Hre, Hkey. cbn [negb orb]. cbv beta iota zeta.
    rewrite Hfind. reflexivity.
  - intros message props ->. rewrite handleError_cases.
    pose proof (includes_iff message "Unique") as Hu.
    pose proof (includes_iff message "connect") as Hc.
    pose proof (includes_iff message "timeout") as Ht.
    unfold contains.
    destruct (includes message "Unique");
      [|destruct (includes message "connect"); [|destruct (includes message "timeout")]];
      cbn [orb]; repeat split; intros; try reflexivity;
      try (exfalso; intuition discriminate).
  - intros Hne. rewrite handleError_cases.
    destruct e; try discriminate Hne; reflexivity.
Qed.

End SignupRoute.

(** * The further properties at concrete inputs *)

Lemma options_preflight_witness :
  exists r,
    handler (upstreamThrows timeoutError)
      {| method := "OPTIONS"; body := VUndefined |} freshResponse
      (startWorld ([101] : MemStore.DB)) = (Normal r, startWorld [101]) /\
    statusCode r = 200 /\ sent r = Ended /\ hasCorsHeaders r.
Proof.
  apply (options_preflight (upstreamThrows timeoutError)
           {| method := "OPTIONS"; body := VUndefined |} freshResponse
           (startWorld ([101] : MemStore.DB))).
  reflexivity.
Defined.

Lemma post_effects_witness :
  let w' := snd (handler (upstreamThrows timeoutError) (POST (bodyWith (VNum 7)))
                   freshResponse (startWorld ([] : MemStore.DB))) in
  upstreamCalls w' = [] /\ queries w' = [QCreate (VNum 7)] /\ db w' = [7].
Proof.
  exact (post_effects (upstreamThrows timeoutError) (POST (bodyWith (VNum 7)))
           freshResponse (startWorld ([] : MemStore.DB)) eq_refl).
Defined.

Lemma delete_effects_witness :
  let w' := snd (handler (upstreamThrows timeoutError) (DELETE (bodyWith (VNum 7)))
                   freshResponse (startWorld ([7; 8] : MemStore.DB))) in
  upstreamCalls w' = [] /\ queries w' = [QDelete (VNum 7)] /\ db w' = [8].
Proof.
  exact (delete_effects (upstreamThrows timeoutError) (DELETE (bodyWith (VNum 7)))
           freshResponse (startWorld ([7; 8] : MemStore.DB)) eq_refl).
Defined.

Lemma get_calls_upstream_once_witness :
  upstreamCalls (snd (handler (upstreamThrows timeoutError) (GET VUndefined)
                        freshResponse (startWorld ([101; -5] : MemStore.DB))))
  = [["101"; "-5"]].
Proof.
  exact (get_calls_upstream_once (upstreamThrows timeoutError) (GET VUndefined)
           freshResponse (startWorld ([101; -5] : MemStore.DB)) eq_refl).
Defined.

Lemma get_success_passthrough_witness :
  exists r,
    fst (handler (fun _ => Normal (VArr [recipe 102 "Soup"])) (GET VUndefined)
           freshResponse (startWorld ([101] : MemStore.DB))) = Normal r /\
    statusCode r = 200 /\ sent r = Json (VArr [recipe 102 "Soup"]).
Proof.
  apply (get_success_passthrough (fun _ => Normal (VArr [recipe 102 "Soup"]))
           (GET VUndefined) freshResponse (startWorld ([101] : MemStore.DB))
           [{| recipeId := 101 |}] (VArr [recipe 102 "Soup"]));
    try reflexivity.
  discriminate.
Defined.

Lemma store_failure_answer_witness :
  (exists r,
     fst (handler (upstreamThrows timeoutError) (DELETE (bodyWith (VNum 5)))
            freshResponse (startWorld tt)) = Normal r /\
     statusCode r = 500 /\
     sent r = Json (VObj [("error", VStr "Oops, something went wrong");
                          ("message",
                           VStr "Authentication failed against database server")])) /\
  fst (handler (prisma := throwingStore unprintableObject) (upstreamThrows timeoutError)
         (GET VUndefined) freshResponse (startWorld tt)) =
  Thrown (TypeError "Cannot convert object to primitive value").
Proof.
  split.
  - apply (proj1 (store_failure_answer (prisma := OfflineStore.store)
                    (upstreamThrows timeoutError)
                    (DELETE (bodyWith (VNum 5))) freshResponse (startWorld tt)
                    OfflineStore.connectionError
                    (or_intror (or_intror
                       (conj eq_refl (conj eq_refl (conj eq_refl eq_refl))))))).
    reflexivity.
  - apply (proj2 (store_failure_answer (prisma := throwingStore unprintableObject)
                    (upstreamThrows timeoutError)
                    (GET VUndefined) freshResponse (startWorld tt)
                    unprintableObject
                    (or_introl (conj eq_refl eq_refl)))).
    reflexivity.
Defined.

Lemma every_answer_has_cors_witness :
  (exists r,
     fst (handler (upstreamThrows timeoutError) (POST (bodyWith (VNum 5)))
            freshResponse (startWorld tt)) = Normal r) /\
  match fst (handler (upstreamThrows unprintableObject) (GET VUndefined)
               freshResponse (startWorld ([101] : MemStore.DB))) with
  | Normal r =>
      hasCorsHeaders r /\ In (statusCode r) handlerStatuses /\ sent r <> NotSent
  | Thrown te => te = TypeError "Cannot convert object to primitive value"
  end.
Proof.
  split.
  - apply (proj2 (every_answer_has_cors (prisma := OfflineStore.store)
                    (upstreamThrows timeoutError)
                    (POST (bodyWith (VNum 5))) freshResponse (startWorld tt))).
    + intros e [= <-]. reflexivity.
    + intros v e [= <-]. reflexivity.
    + intros v e [= <-]. reflexivity.
    + intros ids e [= <-]. reflexivity.
  - exact (proj1 (every_answer_has_cors (prisma := MemStore.store)
                    (upstreamThrows unprintableObject)
                    (GET VUndefined) freshResponse
                    (startWorld ([101] : MemStore.DB)))).
Defined.

Lemma error_limit_classification_witness :
  exists limit,
    isApiLimitError (VError "Your daily points limit of 150 has been reached" []) =
      Normal limit /\
    (limit = true <->
     assoc "code" [] = VNum 402 \/
     (exists pre post,
        "Your daily points limit of 150 has been reached" = pre ++ "points limit" ++ post) \/
     (exists pre post,
        "Your daily points limit of 150 has been reached" = pre ++ "daily limit" ++ post)).
Proof.
  apply (error_limit_classification "Your daily points limit of 150 has been reached" []).
Defined.

Lemma get_thrown_primitive_witness :
  exists r,
    fst (handler (upstreamThrows (VStr "daily limit")) (GET VUndefined)
           freshResponse (startWorld ([101] : MemStore.DB))) = Normal r /\
    statusCode r = 500 /\
    sent r = Json (VObj [("error", VStr "Oops, something went wrong");
                         ("message", VStr "Unknown error")]).
Proof.
  apply (get_thrown_primitive (upstreamThrows (VStr "daily limit")) (GET VUndefined)
           freshResponse (startWorld ([101] : MemStore.DB))
           [{| recipeId := 101 |}] (VStr "daily limit"));
    try reflexivity.
  discriminate.
Defined.

Lemma post_conflict_iff_witness :
  (exists r,
     fst (handler (upstreamThrows timeoutError) (POST (bodyWith (VNum 7)))
            freshResponse (startWorld ([7] : MemStore.DB))) = Normal r /\
     (statusCode r = 409 \/ statusCode r = 500) /\
     (statusCode r = 409 <->
      exists pre post props,
        VError "Unique constraint failed on the fields: (recipeId)" [("code", VStr "P2002")]
        = VError (pre ++ "Unique constraint" ++ post) props)) /\
  fst (handler (prisma := throwingStore unprintableObject) (upstreamThrows timeoutError)
         (POST (bodyWith (VNum 7))) freshResponse (startWorld tt)) =
  Thrown (TypeError "Cannot convert object to primitive value").
Proof.
  split.
  - apply (proj1 (post_conflict_iff (prisma := MemStore.store)
                    (upstreamThrows timeoutError)
                    (POST (bodyWith (VNum 7))) freshResponse
                    (startWorld ([7] : MemStore.DB)) _
                    eq_refl eq_refl eq_refl eq_refl)).
    reflexivity.
  - apply (proj2 (post_conflict_iff (prisma := throwingStore unprintableObject)
                    (upstreamThrows timeoutError)
                    (POST (bodyWith (VNum 7))) freshResponse (startWorld tt)
                    unprintableObject eq_refl eq_refl eq_refl eq_refl)).
    reflexivity.
Defined.

Lemma authorize_accepts_witness :
  Auth.authorize (Signup.trim (platform := samplePlatform)) lowerCase
    sampleFindUnique sampleCompare (loginWith " Ada@Site.io " "secret1")
  = Normal (VObj [("id", VStr "user_ada_1");
                  ("email", VStr "ada@site.io");
                  ("name", VStr "Ada");
                  ("image", VUndefined)]).
Proof.
  apply (authorize_accepts (Signup.trim (platform := samplePlatform)) lowerCase
           sampleFindUnique sampleCompare (loginWith " Ada@Site.io " "secret1")
           " Ada@Site.io " storedUser); try reflexivity.
  discriminate.
Defined.

Lemma jwt_refresh_keeps_token_witness :
  Auth.jwt 1700000000000 [("id", VStr "user_ada_1")] VUndefined VNull VUndefined
  = Normal [("id", VStr "user_ada_1")].
Proof.
  apply (jwt_refresh_keeps_token 1700000000000 [("id", VStr "user_ada_1")]
           VUndefined VNull VUndefined); reflexivity.
Defined.

Lemma jwt_sign_in_id_witness :
  (exists token',
     Auth.jwt 1700000000000 []
       (VObj [("email", VStr "ada@site.io"); ("name", VStr "Ada")])
       googleAccount VUndefined = Normal token' /\
     assoc "id" token' = VStr "ada_1700000000000" /\
     truthy (assoc "id" token') = true) /\
  (exists token',
     Auth.jwt 1700000000000 [] (VObj [("name", VStr "Ada")]) googleAccount VUndefined
       = Normal token' /\
     assoc "id" token' = VStr "undefined_1700000000000").
Proof.
  split.
  - eexists. split; [reflexivity|].
    destruct (jwt_sign_in_id 1700000000000 [] _
                (VObj [("email", VStr "ada@site.io"); ("name", VStr "Ada")])
                googleAccount VUndefined eq_refl eq_refl)
      as (Htruthy & _ & Hgenerated & _).
    split; [|exact Htruthy].
    destruct (Hgenerated eq_refl) as (Hlocal & _ & _).
    apply (Hlocal "ada" "site.io" eq_refl).
    intros pre post Heq.
    assert (Hin : includes "ada" "@" = true)
      by (apply includes_iff; exists pre, post; exact Heq).
    discriminate Hin.
  - eexists. split; [reflexivity|].
    destruct (jwt_sign_in_id 1700000000000 [] _ (VObj [("name", VStr "Ada")])
                googleAccount VUndefined eq_refl eq_refl)
      as (_ & _ & Hgenerated & _).
    destruct (Hgenerated eq_refl) as (_ & _ & Hnone).
    exact (Hnone eq_refl).
Defined.

Lemma jwt_provider_tokens_witness :
  (exists token',
     Auth.jwt 1700000000000 [] (Auth.userOf storedUser)
       (VObj [("provider", VStr "credentials")]) VUndefined = Normal token' /\
     assoc "accessToken" token' = VUndefined) /\
  (exists token',
     Auth.jwt 1700000000000 [] (Auth.userOf storedUser) googleAccount VUndefined
       = Normal token' /\
     assoc "accessToken" token' = VStr "ya29.token").
Proof.
  split; eexists; (split; [reflexivity|]).
  - apply (jwt_provider_tokens 1700000000000 [] _ (Auth.userOf storedUser)
             (VObj [("provider", VStr "credentials")]) VUndefined eq_refl).
  - apply (jwt_provider_tokens 1700000000000 [] _ (Auth.userOf storedUser)
             googleAccount VUndefined eq_refl).
Defined.

Lemma session_copies_token_witness :
  exists u',
    Auth.session sampleSession [("id", VStr "user_ada_1")] =
      {| Auth.user := Some u'; Auth.others := Auth.others sampleSession |} /\
    assoc "id" u' = VStr "user_ada_1" /\
    assoc "name" u' = VStr "Ada".
Proof.
  destruct (session_copies_token sampleSession [("id", VStr "user_ada_1")])
    as (u' & Hs & Hid & _ & _ & Hkeep).
  exists u'. split; [exact Hs|]. split; [exact Hid|].
  rewrite (Hkeep "name"); [reflexivity| | |]; discriminate.
Defined.

Lemma sign_in_reaches_session_witness :
  exists token' u',
    Auth.jwt 1700000000000 [] (Auth.userOf storedUser)
      (VObj [("provider", VStr "credentials")]) VUndefined = Normal token' /\
    Auth.user (Auth.session sampleSession token') = Some u' /\
    assoc "id" u' = VStr "user_ada_1".
Proof.
  eexists.
  destruct (sign_in_reaches_session 1700000000000 [] _ (Auth.userOf storedUser)
              (VObj [("provider", VStr "credentials")]) VUndefined sampleSession _
              eq_refl eq_refl eq_refl)
    as (u' & Hu & _ & Hid).
  exists u'. split; [reflexivity|]. split; [exact Hu|]. apply Hid. reflexivity.
Defined.

Lemma emailRegex_language_witness :
  Signup.emailRegexTest (platform := samplePlatform) "ada@mail.site.io" = true /\
  Signup.emailRegexTest (platform := samplePlatform) "ada@site" = false.
Proof.
  split.
  - apply (proj2 (emailRegex_language (platform := samplePlatform) "ada@mail.site.io")).
    exists "ada", "mail", "site.io". repeat split; discriminate.
  - reflexivity.
Defined.

Lemma valid_email_needs_no_trim_witness :
  Signup.trim (platform := samplePlatform) "Ada@Site.io" = "Ada@Site.io" /\
  Signup.normalizedEmail (platform := samplePlatform) (VStr "Ada@Site.io")
    = Normal "ada@site.io".
Proof.
  apply (valid_email_needs_no_trim (platform := samplePlatform) "Ada@Site.io").
  reflexivity.
Defined.


Lemma signup_short_password_witness :
  Signup.POST (platform := samplePlatform) (Normal (signupBody "not an email" "12345"))
  = ((VObj [("error", VStr "Password must be at least 6 characters long")], 400), []).
Proof.
  apply (signup_short_password (platform := samplePlatform)
           (Normal (signupBody "not an email" "12345"))
           (signupBody "not an email" "12345") "12345"); try reflexivity.
  cbn. lia.
Defined.

Lemma signup_invalid_email_witness :
  Signup.POST (platform := samplePlatform) (Normal (signupBody "ada@site" "secret1"))
  = ((VObj [("error", VStr "Invalid email format")], 400), []).
Proof.
  apply (signup_invalid_email (platform := samplePlatform)
           (Normal (signupBody "ada@site" "secret1"))
           (signupBody "ada@site" "secret1") "ada@site" "secret1"); try reflexivity.
  - discriminate.
  - cbn. lia.
Defined.

Lemma signup_existing_user_witness :
  Signup.POST (platform := samplePlatform) (Normal (signupBody "Ada@Site.io" "secret1"))
  = ((VObj [("error", VStr "User already exists");
            ("message",
             VStr "An account with this email already exists. Please sign in instead.")],
      409),
     [Signup.FindUnique "ada@site.io"]).
Proof.
  apply (signup_existing_user (platform := samplePlatform)
           (Normal (signupBody "Ada@Site.io" "secret1"))
           (signupBody "Ada@Site.io" "secret1") "Ada@Site.io" "secret1" storedUser);
    try reflexivity.
  cbn. lia.
Defined.

Lemma signup_creates_user_witness :
  snd (Signup.POST (platform := samplePlatform)
         (Normal (signupBody "Bob@Site.io" "secret1")))
  = [Signup.FindUnique "bob@site.io";
     Signup.Hash (VStr "secret1") 10;
     Signup.Create (VObj [("id", VStr "user_Bob_1700000000000");
                          ("email", VStr "bob@site.io");
                          ("name", VNull);
                          ("password", VStr "hash:secret1");
                          ("picture", VNull)])].
Proof.
  rewrite (signup_creates_user (platform := samplePlatform)
             (Normal (signupBody "Bob@Site.io" "secret1"))
             (signupBody "Bob@Site.io" "secret1") "Bob@Site.io" "secret1"
             VNull (VStr "hash:secret1") VNull
             (VObj [("id", VStr "user_Bob_1700000000000");
                    ("email", VStr "bob@site.io");
                    ("name", VNull)]));
    try reflexivity.
  cbn. lia.
Defined.

Lemma signup_create_guard_witness :
  exists body email existingUser hashedPassword,
    Normal (signupBody "Bob@Site.io" "secret1") = Normal body /\
    getProp body "email" = VStr email /\
    Signup.emailRegexTest (platform := samplePlatform) email = true /\
    truthy (getProp body "password") = true /\
    Signup.lessThan (platform := samplePlatform)
      (Signup.lengthOf (getProp body "password")) 6 = false /\
    sampleFindUnique (lowerCase email) = Normal existingUser /\
    truthy existingUser = false /\
    sampleHash (getProp body "password") 10 = Normal hashedPassword /\
    VStr "hash:secret1" = hashedPassword /\
    VStr "bob@site.io" = VStr (lowerCase email).
Proof.
  apply (signup_create_guard (platform := samplePlatform)
           (Normal (signupBody "Bob@Site.io" "secret1"))
           (VObj [("id", VStr "user_Bob_1700000000000");
                  ("email", VStr "bob@site.io");
                  ("name", VNull);
                  ("password", VStr "hash:secret1");
                  ("picture", VNull)])).
  right. right. left. reflexivity.
Defined.

Lemma signup_lookup_failure_witness :
  Signup.POST (platform := offlinePlatform) (Normal (signupBody "Ada@Site.io" "secret1"))
  = ((VObj [("error", VStr "Database error");
            ("message", VStr "Failed to connect to database. Please try again.")],
      500),
     [Signup.FindUnique "ada@site.io"; Signup.CaptureException unreachableError]).
Proof.
  destruct (signup_lookup_failure (platform := offlinePlatform)
              (Normal (signupBody "Ada@Site.io" "secret1"))
              (signupBody "Ada@Site.io" "secret1") "Ada@Site.io" "secret1"
              unreachableError eq_refl eq_refl eq_refl eq_refl eq_refl
              ltac:(cbn; lia) eq_refl eq_refl)
    as (answer & Hpost & Herror & _).
  rewrite Hpost. f_equal.
  apply (proj1 (proj2 (Herror _ _ eq_refl))).
  - intros (pre & post & Heq).
    assert (Hin : includes "Can't reach database server: connect ECONNREFUSED"
                    "Unique" = true)
      by (apply includes_iff; exists pre, post; exact Heq).
    discriminate Hin.
  - left. apply includes_iff. reflexivity.
Defined.
